(** * Leaderboard service (backend/server.py): model and verified properties

    The service has three request handlers over one document collection,
    [db.game_sessions]:
    - [create_game_session]  POST /game/session
    - [get_leaderboard]      GET  /game/leaderboard
    - [get_stats]            GET  /game/stats

    The handlers are embedded as functions in a state-and-error monad over
    the document database.  Python dictionaries are finite maps from field
    names to dynamically typed values.  Python [float]s are modelled by
    exact rationals ([Q]): representation error, NaN and infinities are
    outside the model.  Requests are handled one at a time. *)

From Stdlib Require Import ZArith QArith Qround Qabs String Ascii.
From Stdlib Require Import DecimalString DecimalZ Lia Lqa.
From stdpp Require Import base option list gmap strings sorting.

Local Open Scope string_scope.
Local Open Scope list_scope.
Local Open Scope Z_scope.

(** ** Dynamically typed values *)

(** [datetime] values are instants, counted in microseconds from the epoch. *)
Definition datetime := Z.

(** The values that occur in request bodies, in Python dictionaries of the
    handlers and in stored documents. *)
Inductive value :=
  | VNull
  | VInt (z : Z)
  | VFloat (q : Q)
  | VStr (s : string)
  | VDatetime (t : datetime)
  | VObjectId (n : nat).

(** A Python [dict] with string keys: request body, stored document,
    response object. *)
Abbreviation dict := (gmap string value).

(** The document database: collection name to documents, insertion order. *)
Abbreviation DB := (gmap string (list dict)).

(** ** HTTP outcomes *)

(** FastAPI answers 422 when request validation fails ([ValidationError]);
    an exception raised inside a handler or while serialising its result
    is answered with 500 ([ServerError]). *)
Inductive error := ValidationError | ServerError.

Inductive result (A : Type) :=
  | Ok (a : A)
  | Err (e : error).
Arguments Ok {A} a.
Arguments Err {A} e.

(** Handlers run against the database: state passing with errors.  The
    state is returned in both cases, so that what a failed request did to
    the store is visible. *)
Definition M (A : Type) : Type := DB -> result A * DB.

Definition ret {A} (a : A) : M A := fun db => (Ok a, db).
Definition raise {A} (e : error) : M A := fun db => (Err e, db).
Definition bind {A B} (m : M A) (k : A -> M B) : M B :=
  fun db => match m db with
            | (Ok a, db') => k a db'
            | (Err e, db') => (Err e, db')
            end.

Notation "'let*' x ':=' m 'in' k" := (bind m (fun x => k))
  (at level 10, x name, m at level 100, k at level 200).

(** Lift a partial computation; [None] is an exception escaping the handler. *)
Definition try {A} (o : option A) (e : error) : M A :=
  match o with Some a => ret a | None => raise e end.

(** ** Library behaviour the handlers rely on *)

(** What the validation library accepts for a declared type and how
    instants are rendered is not decided by server.py.  The handlers are
    verified against this interface. *)
Class Runtime := {
  (** pydantic, field declared [int] *)
  int_validate : value -> option Z;
  (** pydantic, field declared [float] *)
  float_validate : value -> option Q;
  (** [datetime.isoformat] and [datetime.fromisoformat] *)
  isoformat : datetime -> string;
  fromisoformat : string -> option datetime;
  (** a value that already has the declared type is accepted unchanged *)
  int_validate_int : forall z, int_validate (VInt z) = Some z;
  float_validate_float : forall q, float_validate (VFloat q) = Some q;
  fromisoformat_isoformat : forall t, fromisoformat (isoformat t) = Some t
}.

(** pydantic, field declared [str]: only strings are accepted. *)
Definition str_validate (v : value) : option string :=
  match v with VStr s => Some s | _ => None end.

(** pydantic, field declared [datetime]: an instant, or a string that
    parses as one. *)
Definition datetime_validate `{Runtime} (v : value) : option datetime :=
  match v with
  | VDatetime t => Some t
  | VStr s => fromisoformat s
  | _ => None
  end.

(** ** The document store (MongoDB through the Motor driver) *)

(** The service stores into and reads from one collection. *)
Definition game_sessions : string := "game_sessions".

(** A collection that was never written to is empty. *)
Definition collection (name : string) (db : DB) : list dict :=
  default [] (db !! name).

(** BSON integers have at most 64 bits; the driver refuses to encode a
    larger Python [int] ([OverflowError]). *)
Definition int64_min : Z := - 2 ^ 63.
Definition int64_max : Z := 2 ^ 63 - 1.

Definition bson_value_ok (v : value) : bool :=
  match v with
  | VInt z => (int64_min <=? z) && (z <=? int64_max)
  | _ => true
  end.

Definition bson_encodable (doc : dict) : bool :=
  bool_decide (map_Forall (fun _ v => bson_value_ok v = true) doc).

(** [insert_one]: the driver adds a fresh [_id] to a document that has
    none (here: the position in the collection) and appends it. *)
Definition with_id (n : nat) (doc : dict) : dict :=
  match doc !! "_id" with
  | Some _ => doc
  | None => <["_id" := VObjectId n]> doc
  end.

Definition insert_one (name : string) (doc : dict) : M unit :=
  fun db =>
    if bson_encodable doc
    then (Ok tt, <[name := collection name db ++ [with_id (length (collection name db)) doc]]> db)
    else (Err ServerError, db).

(** [find({}, {"_id": 0})]: every document, without its [_id]. *)
Definition find_without_id (name : string) : M (list dict) :=
  fun db => (Ok (delete "_id" <$> collection name db), db).

(** [count_documents({})] *)
Definition count_documents (name : string) : M Z :=
  fun db => (Ok (Z.of_nat (length (collection name db))), db).

(** *** BSON comparison order

    Values are compared by type bracket first (null and missing fields
    below numbers, numbers below strings, ...), numbers numerically across
    [int] and [float].  Within a bracket other than the numbers the model
    does not distinguish values. *)
Definition bson_bracket (v : value) : Z :=
  match v with
  | VNull => 0
  | VInt _ | VFloat _ => 1
  | VStr _ => 2
  | VObjectId _ => 3
  | VDatetime _ => 4
  end.

Definition bson_number (v : value) : Q :=
  match v with
  | VInt z => inject_Z z
  | VFloat q => q
  | _ => 0%Q
  end.

Definition bson_leb (a b : value) : bool :=
  (bson_bracket a <? bson_bracket b)
  || ((bson_bracket a =? bson_bracket b) && Qle_bool (bson_number a) (bson_number b)).

(** A field path such as ["$score"]: a missing field reads as null. *)
Definition field (key : string) (doc : dict) : value :=
  default VNull (doc !! key).

(** [cursor.sort(key, -1)]: descending, so a document comes before those
    with a smaller or equal key. *)
Definition sort_before (key : string) (a b : dict) : Prop :=
  bson_leb (field key b) (field key a) = true.

#[global] Instance sort_before_dec key : RelDecision (sort_before key).
Proof. intros a b. unfold sort_before. apply _. Defined.

Definition sort_desc (key : string) (docs : list dict) : list dict :=
  merge_sort (sort_before key) docs.

(** [cursor.limit(n)]: 0 is no limit, a negative limit counts as its
    absolute value. *)
Definition cursor_limit (n : Z) (docs : list dict) : list dict :=
  if n =? 0 then docs else take (Z.abs_nat n) docs.

(** [cursor.to_list(length)]: at most [length] documents; a negative
    [length] raises [ValueError]. *)
Definition to_list (len : Z) (docs : list dict) : option (list dict) :=
  if len <? 0 then None else Some (take (Z.to_nat len) docs).

(** *** Aggregation: a [$group] stage with [_id: None] *)

Inductive accumulator :=
  | Avg (key : string)     (* {"$avg": "$key"} *)
  | Max (key : string).    (* {"$max": "$key"} *)

Definition numeric (v : value) : option Q :=
  match v with
  | VInt z => Some (inject_Z z)
  | VFloat q => Some q
  | _ => None
  end.

Definition Qsum (qs : list Q) : Q := foldr Qplus 0%Q qs.

(** [$avg]: the mean of the numeric values, null when there is none. *)
Definition avg_values (vs : list value) : value :=
  match omap numeric vs with
  | [] => VNull
  | qs => VFloat (Qred (Qsum qs / inject_Z (Z.of_nat (length qs))))
  end.

(** [$max]: the greatest value in BSON order; null values are below all
    others, so they only win when there is nothing else. *)
Fixpoint max_values (vs : list value) : value :=
  match vs with
  | [] => VNull
  | v :: vs' => let m := max_values vs' in if bson_leb v m then m else v
  end.

Definition accumulate (acc : accumulator) (docs : list dict) : value :=
  match acc with
  | Avg key => avg_values (field key <$> docs)
  | Max key => max_values (field key <$> docs)
  end.

(** One group for the whole collection; no group when it is empty. *)
Definition aggregate_group (name : string) (spec : list (string * accumulator))
    : M (list dict) :=
  fun db =>
    let docs := collection name db in
    (Ok match docs with
        | [] => []
        | _ => [ <["_id" := VNull]>
                   (list_to_map (prod_map id (fun acc => accumulate acc docs) <$> spec)) ]
        end, db).

(** ** Data models *)

(** What one call of [create_game_session] draws from its environment:
    [str(uuid.uuid4())] and [datetime.now(timezone.utc)], the default
    factories of [GameSession]. *)
Record draws := { uuid4 : string; now : datetime }.

(** [class GameSessionCreate(BaseModel)]: the request body of the ingest.
    Fields that are not declared are ignored. *)
Module GameSessionCreate.
Record t := { score : Z; survival_time : Q; complexity_peak : Q }.

Definition validate `{Runtime} (body : dict) : option t :=
  score ← body !! "score" ≫= int_validate;
  survival_time ← body !! "survival_time" ≫= float_validate;
  complexity_peak ← body !! "complexity_peak" ≫= float_validate;
  Some {| score := score; survival_time := survival_time;
          complexity_peak := complexity_peak |}.

Definition model_dump (m : t) : dict :=
  <["score" := VInt (score m)]>
    (<["survival_time" := VFloat (survival_time m)]>
       (<["complexity_peak" := VFloat (complexity_peak m)]> ∅)).
End GameSessionCreate.

(** [class GameSession(BaseModel)]: the persisted entity.  [session_id]
    and [timestamp] come from their default factories unless the keyword
    arguments supply them. *)
Module GameSession.
Record t := { session_id : string; score : Z; survival_time : Q;
              complexity_peak : Q; timestamp : datetime }.

Definition new `{Runtime} (env : draws) (kwargs : dict) : option t :=
  session_id ← match kwargs !! "session_id" with
               | Some v => str_validate v
               | None => Some (uuid4 env)
               end;
  score ← kwargs !! "score" ≫= int_validate;
  survival_time ← kwargs !! "survival_time" ≫= float_validate;
  complexity_peak ← kwargs !! "complexity_peak" ≫= float_validate;
  timestamp ← match kwargs !! "timestamp" with
              | Some v => datetime_validate v
              | None => Some (now env)
              end;
  Some {| session_id := session_id; score := score;
          survival_time := survival_time;
          complexity_peak := complexity_peak; timestamp := timestamp |}.

Definition model_dump (m : t) : dict :=
  <["session_id" := VStr (session_id m)]>
    (<["score" := VInt (score m)]>
       (<["survival_time" := VFloat (survival_time m)]>
          (<["complexity_peak" := VFloat (complexity_peak m)]>
             (<["timestamp" := VDatetime (timestamp m)]> ∅)))).
End GameSession.

(** [class LeaderboardEntry(BaseModel)]: the response model of the
    leaderboard; [rank: Optional[int] = None]. *)
Module LeaderboardEntry.
Record t := { session_id : string; score : Z; survival_time : Q;
              complexity_peak : Q; rank : option Z }.

Definition validate `{Runtime} (d : dict) : option t :=
  session_id ← d !! "session_id" ≫= str_validate;
  score ← d !! "score" ≫= int_validate;
  survival_time ← d !! "survival_time" ≫= float_validate;
  complexity_peak ← d !! "complexity_peak" ≫= float_validate;
  rank ← match d !! "rank" with
         | None | Some VNull => Some None
         | Some v => Some <$> int_validate v
         end;
  Some {| session_id := session_id; score := score;
          survival_time := survival_time;
          complexity_peak := complexity_peak; rank := rank |}.

(** The JSON object sent for an entry. *)
Definition model_dump (m : t) : dict :=
  <["session_id" := VStr (session_id m)]>
    (<["score" := VInt (score m)]>
       (<["survival_time" := VFloat (survival_time m)]>
          (<["complexity_peak" := VFloat (complexity_peak m)]>
             (<["rank" := from_option VInt VNull (rank m)]> ∅)))).
End LeaderboardEntry.

(** ** Python's [round(x, 1)] *)

(** Round to the nearest integer, ties to the even one. *)
Definition round_half_even (x : Q) : Z :=
  let f := Qfloor x in
  match (x - inject_Z f ?= 1 # 2)%Q with
  | Lt => f
  | Gt => f + 1
  | Eq => if Z.even f then f else f + 1
  end.

Definition round1 (x : Q) : Q := Qred (round_half_even (x * 10) # 10).

(** [round(v, 1)]: a float is rounded to one decimal, an [int] is returned
    as it is, anything else raises [TypeError]. *)
Definition py_round1 (v : value) : option value :=
  match v with
  | VFloat q => Some (VFloat (round1 q))
  | VInt z => Some (VInt z)
  | _ => None
  end.

(** ** The request handlers *)

Section Handlers.
Context `{Runtime}.

(** [async def create_game_session(input: GameSessionCreate)] *)
Definition create_game_session (env : draws) (input : GameSessionCreate.t)
    : M GameSession.t :=
  let session_dict := GameSessionCreate.model_dump input in
  let* session_obj := try (GameSession.new env session_dict) ServerError in
  let doc := GameSession.model_dump session_obj in
  let* iso := try (match doc !! "timestamp" with
              | Some (VDatetime t) => Some (isoformat t)
              | _ => None
              end) ServerError in
  let doc := <["timestamp" := VStr iso]> doc in
  let* _ := insert_one game_sessions doc in
  ret session_obj.

(** The loop [for idx, session in enumerate(sessions)] of
    [get_leaderboard], from index [idx] on. *)
Fixpoint annotate (idx : nat) (sessions : list dict) : M (list dict) :=
  match sessions with
  | [] => ret []
  | session :: rest =>
      let* ts := try (session !! "timestamp") ServerError in
      let* session := match ts with
                 | VStr s =>
                     let* t := try (fromisoformat s) ServerError in
                     ret (<["timestamp" := VDatetime t]> session)
                 | _ => ret session
                 end in
      let session := <["rank" := VInt (Z.of_nat idx + 1)]> session in
      let* rest := annotate (S idx) rest in
      ret (session :: rest)
  end.

(** [async def get_leaderboard(limit: int = 10)] *)
Definition get_leaderboard (limit : Z) : M (list dict) :=
  let* docs := find_without_id game_sessions in
  let* sessions := try (to_list limit (cursor_limit limit (sort_desc "score" docs)))
                  ServerError in
  annotate 0 sessions.

Definition stats_dict (total_games avg_score avg_survival_time highest_score : value)
    : dict :=
  <["total_games" := total_games]>
    (<["avg_score" := avg_score]>
       (<["avg_survival_time" := avg_survival_time]>
          (<["highest_score" := highest_score]> ∅))).

Definition pipeline : list (string * accumulator) :=
  [ ("avg_score", Avg "score");
    ("avg_survival_time", Avg "survival_time");
    ("max_score", Max "score") ].

(** [async def get_stats()] *)
Definition get_stats : M dict :=
  let* total_games := count_documents game_sessions in
  if total_games =? 0
  then ret (stats_dict (VInt 0) (VInt 0) (VInt 0) (VInt 0))
  else
    let* groups := aggregate_group game_sessions pipeline in
    let* result := try (to_list 1 groups) ServerError in
    match result with
    | stats :: _ =>
        let* avg_score := try (stats !! "avg_score" ≫= py_round1) ServerError in
        let* avg_survival_time :=
          try (stats !! "avg_survival_time" ≫= py_round1) ServerError in
        let* max_score := try (stats !! "max_score") ServerError in
        ret (stats_dict (VInt total_games) avg_score avg_survival_time max_score)
    | [] => ret (stats_dict (VInt total_games) (VInt 0) (VInt 0) (VInt 0))
    end.

(** [async def root()] *)
Definition root : M dict :=
  ret (<["message" := VStr "Vast Unknown API"]> ∅).

(** *** The routes: handlers behind request and response validation *)

(** POST /game/session: the body is validated against
    [GameSessionCreate] before the handler runs. *)
Definition post_game_session (env : draws) (body : dict) : M GameSession.t :=
  let* input := try (GameSessionCreate.validate body) ValidationError in
  create_game_session env input.

(** The declared default of the query parameter [limit]. *)
Definition default_limit : Z := 10.

(** GET /game/leaderboard?limit=N: [limit] is optional and declared
    [int]; the handler's result is validated against
    [List[LeaderboardEntry]] before it is sent. *)
Definition get_game_leaderboard (limit : option string)
    : M (list LeaderboardEntry.t) :=
  let* limit := match limit with
           | None => ret default_limit
           | Some s => try (int_validate (VStr s)) ValidationError
           end in
  let* sessions := get_leaderboard limit in
  try (mapM LeaderboardEntry.validate sessions) ServerError.

(** Requests and the service as a transition system on the store. *)
Inductive request :=
  | PostGameSession (env : draws) (body : dict)
  | GetGameLeaderboard (limit : option string)
  | GetGameStats
  | GetRoot.

Inductive response :=
  | RSession (s : GameSession.t)
  | RLeaderboard (entries : list LeaderboardEntry.t)
  | RStats (stats : dict)
  | RRoot (msg : dict).

Definition serve (r : request) : M response :=
  match r with
  | PostGameSession env body => let* s := post_game_session env body in ret (RSession s)
  | GetGameLeaderboard limit => let* l := get_game_leaderboard limit in ret (RLeaderboard l)
  | GetGameStats => let* s := get_stats in ret (RStats s)
  | GetRoot => let* m := root in ret (RRoot m)
  end.

(** A sequence of requests, served one after the other: the outcomes and
    the store at the end. *)
Fixpoint serve_all (rs : list request) (db : DB) : list (result response) * DB :=
  match rs with
  | [] => ([], db)
  | r :: rs' =>
      let '(x, db') := serve r db in
      let '(xs, db'') := serve_all rs' db' in
      (x :: xs, db'')
  end.

Definition run (rs : list request) (db : DB) : DB := (serve_all rs db).2.
End Handlers.



(** ** The shape of stored documents *)

(** A document as [create_game_session] writes it: the five fields of
    [GameSession] with their declared types, the timestamp as a string
    that [fromisoformat] reads. *)
Definition session_doc `{Runtime} (d : dict) : bool :=
  match d !! "session_id", d !! "score", d !! "survival_time",
        d !! "complexity_peak", d !! "timestamp" with
  | Some (VStr _), Some (VInt _), Some (VFloat _), Some (VFloat _), Some (VStr s) =>
      bool_decide (is_Some (fromisoformat s))
  | _, _, _, _, _ => false
  end.

(** The invariant of the store: [game_sessions] holds session documents. *)
Definition session_store `{Runtime} (db : DB) : Prop :=
  Forall (fun d => session_doc d = true) (collection game_sessions db).

(** Reading the fields of a session document. *)
Definition doc_session_id (d : dict) : string :=
  match d !! "session_id" with Some (VStr s) => s | _ => EmptyString end.
Definition doc_score (d : dict) : Z :=
  match d !! "score" with Some (VInt z) => z | _ => 0 end.
Definition doc_survival_time (d : dict) : Q :=
  match d !! "survival_time" with Some (VFloat q) => q | _ => 0%Q end.
Definition doc_complexity_peak (d : dict) : Q :=
  match d !! "complexity_peak" with Some (VFloat q) => q | _ => 0%Q end.

(** The entry that the leaderboard sends for the document at position
    [idx] of the page. *)
Definition entry_at (idx : nat) (d : dict) : LeaderboardEntry.t :=
  {| LeaderboardEntry.session_id := doc_session_id d;
     LeaderboardEntry.score := doc_score d;
     LeaderboardEntry.survival_time := doc_survival_time d;
     LeaderboardEntry.complexity_peak := doc_complexity_peak d;
     LeaderboardEntry.rank := Some (Z.of_nat idx + 1) |}.

(** The documents that the query of [get_leaderboard] selects. *)
Definition selected (limit : Z) (db : DB) : list dict :=
  take (Z.to_nat limit)
    (cursor_limit limit (sort_desc "score" (delete "_id" <$> collection game_sessions db))).


(** The greatest element of a list of integers that starts with [z]. *)
Definition Zmax_list (z : Z) (zs : list Z) : Z := foldr Z.max z zs.

(** What the loop of [get_leaderboard] makes of a session document at
    index [idx]. *)
Definition annotated `{Runtime} (idx : nat) (d : dict) : dict :=
  <["rank" := VInt (Z.of_nat idx + 1)]>
    (match d !! "timestamp" with
     | Some (VStr s) =>
         match fromisoformat s with
         | Some t => <["timestamp" := VDatetime t]> d
         | None => d
         end
     | _ => d
     end).


(** The limit that a request asks for, when it is an integer. *)
Definition requested `{Runtime} (limit : option string) : option Z :=
  match limit with
  | None => Some default_limit
  | Some s => int_validate (VStr s)
  end.


(** The session that an accepted ingest creates, and the document that it
    stores for it (before the driver adds [_id]). *)
Definition new_session (env : draws) (input : GameSessionCreate.t) : GameSession.t :=
  {| GameSession.session_id := uuid4 env;
     GameSession.score := GameSessionCreate.score input;
     GameSession.survival_time := GameSessionCreate.survival_time input;
     GameSession.complexity_peak := GameSessionCreate.complexity_peak input;
     GameSession.timestamp := now env |}.

Definition stored_doc `{Runtime} (s : GameSession.t) : dict :=
  <["timestamp" := VStr (isoformat (GameSession.timestamp s))]>
    (GameSession.model_dump s).

(** A required field of the request body is rejected: it is missing, or
    its value is not convertible to the declared type. *)
Definition rejected {A} (validate : value -> option A) (key : string) (body : dict)
    : Prop :=
  match body !! key with
  | None => True
  | Some v => validate v = None
  end.

(** ** An instance of the library interface

    Used to run the handlers on concrete requests.  Numbers are accepted
    for [int] when they have no fractional part, strings when they are
    decimal numerals; instants are rendered as their decimal count, which
    stands in for the ISO 8601 text: the handlers only rely on
    [fromisoformat] reading back what [isoformat] wrote. *)
Module Lax.
Definition int_of_str (s : string) : option Z :=
  Z.of_int <$> NilZero.int_of_string s.

Definition str_of_int (z : Z) : string :=
  NilZero.string_of_int (Z.to_int z).

Fixpoint split_dot (s : string) : string * option string :=
  match s with
  | EmptyString => (EmptyString, None)
  | String c r =>
      if Ascii.eqb c "."%char then (EmptyString, Some r)
      else let '(a, b) := split_dot r in (String c a, b)
  end.

(** An optionally signed decimal numeral with an optional fraction. *)
Definition float_of_str (s : string) : option Q :=
  let '(neg, body) :=
    match s with
    | String c r => if Ascii.eqb c "-"%char then (true, r) else (false, s)
    | EmptyString => (false, s)
    end in
  let '(ip, fp) := split_dot body in
  i ← Z.of_uint <$> NilZero.uint_of_string ip;
  f ← match fp with
      | None => Some 0%Q
      | Some fs =>
          u ← NilZero.uint_of_string fs;
          Some (Z.of_uint u # Pos.of_nat (10 ^ String.length fs))%Q
      end;
  let q := (inject_Z i + f)%Q in
  Some (Qred (if neg then - q else q)%Q).

Definition lax_int (v : value) : option Z :=
  match v with
  | VInt z => Some z
  | VFloat q =>
      if (Qnum q mod Zpos (Qden q) =? 0) then Some (Qnum q / Zpos (Qden q)) else None
  | VStr s => int_of_str s
  | _ => None
  end.

Definition lax_float (v : value) : option Q :=
  match v with
  | VInt z => Some (inject_Z z)
  | VFloat q => Some q
  | VStr s => float_of_str s
  | _ => None
  end.

#[export] Instance runtime : Runtime.
Proof.
  refine {| int_validate := lax_int;
            float_validate := lax_float;
            isoformat := str_of_int;
            fromisoformat := int_of_str;
            int_validate_int := fun z => eq_refl;
            float_validate_float := fun q => eq_refl |}.
  intros z. unfold int_of_str, str_of_int.
  rewrite NilZero.isi.
  - simpl. f_equal. apply DecimalZ.of_to.
  - destruct z; simpl; try discriminate.
    intros [= E]. by apply DecimalPos.Unsigned.to_uint_nonnil in E.
  - destruct z; simpl; try discriminate.
    intros [= E]. by apply DecimalPos.Unsigned.to_uint_nonnil in E.
Defined.
End Lax.


(** ** Concrete requests

    Three sessions are ingested into an empty store, then a fourth one;
    the handlers run with the instance [Lax.runtime]. *)
Module Example.
Definition payload (score : Z) (survival_time complexity_peak : Q) : dict :=
  <["score" := VInt score]>
    (<["survival_time" := VFloat survival_time]>
       (<["complexity_peak" := VFloat complexity_peak]> ∅)).

Definition env1 : draws :=
  {| uuid4 := "3f2b8c1e-0d4a-4c7e-9b1a-5e6f7a8b9c01"; now := 1714564800000000 |}.
Definition env2 : draws :=
  {| uuid4 := "a47d9e02-6b3f-4f18-8c2d-1e0f9a8b7c02"; now := 1714564860000000 |}.
Definition env3 : draws :=
  {| uuid4 := "c90e1f53-2a7b-4d69-a3e4-7b8c9d0e1f03"; now := 1714564920000000 |}.
Definition env4 : draws :=
  {| uuid4 := "e15a2b64-8c9d-4e7f-b0a1-2c3d4e5f6a04"; now := 1714564980000000 |}.

Definition requests : list request :=
  [ PostGameSession env1 (payload 10 (51 # 2) (175 # 2));
    PostGameSession env2 (payload 30 12 40);
    PostGameSession env3 (payload 20 (7 # 2) 55) ].

Definition db3 : DB := run (H := Lax.runtime) requests ∅.

(** The payload of the repository's test. *)
Definition body4 : dict := payload 150 (51 # 2) (175 # 2).

Definition session4 : GameSession.t :=
  {| GameSession.session_id := uuid4 env4;
     GameSession.score := 150;
     GameSession.survival_time := 51 # 2;
     GameSession.complexity_peak := 175 # 2;
     GameSession.timestamp := now env4 |}.

Definition db4 : DB := (post_game_session (H := Lax.runtime) env4 body4 db3).2.

(** The two best of [db3]. *)
Definition page2 : list LeaderboardEntry.t :=
  [ {| LeaderboardEntry.session_id := uuid4 env2;
       LeaderboardEntry.score := 30;
       LeaderboardEntry.survival_time := 12;
       LeaderboardEntry.complexity_peak := 40;
       LeaderboardEntry.rank := Some 1 |};
    {| LeaderboardEntry.session_id := uuid4 env3;
       LeaderboardEntry.score := 20;
       LeaderboardEntry.survival_time := 7 # 2;
       LeaderboardEntry.complexity_peak := 55;
       LeaderboardEntry.rank := Some 2 |} ].

(** A body with a score that is no number and nothing else. *)
Definition bad_body : dict := <["score" := VStr "not-a-number"]> ∅.
End Example.

(** ** The HTTP interface of the service *)

(** JSON as Python reads it: integers and other numbers are told apart. *)
#[warnings="-register-all"]
Inductive json :=
  | JNull
  | JBool (b : bool)
  | JInt (z : Z)
  | JFloat (q : Q)
  | JStr (s : string)
  | JArr (items : list json)
  | JObj (members : gmap string json).

(** The requests that the test client sends: [requests.get(url)] and
    [requests.post(url, json=payload)]. *)
Inductive http_request :=
  | HttpGet (url : string)
  | HttpPost (url : string) (payload : dict).

(** What the client reads of a response: the status code and the body
    when it is JSON ([response.json()] raises otherwise). *)
Record http_response := { status_code : Z; content : option json }.

(** What the web framework decides on its own: the answer to a request
    that matches no route of server.py as it is modelled here, the text of
    an instant in a JSON body, and the body of an error response. *)
Record framework := {
  elsewhere : http_request -> http_response;
  json_datetime : datetime -> string;
  error_content : error -> option json
}.

(** 422 for a request that fails validation, 500 for an exception. *)
Definition status_of_error (e : error) : Z :=
  match e with ValidationError => 422 | ServerError => 500 end.

(** The JSON encoding of a value; an [ObjectId] has none. *)
Definition json_of_value (fw : framework) (v : value) : option json :=
  match v with
  | VNull => Some JNull
  | VInt z => Some (JInt z)
  | VFloat q => Some (JFloat q)
  | VStr s => Some (JStr s)
  | VDatetime t => Some (JStr (json_datetime fw t))
  | VObjectId _ => None
  end.

Definition json_of_dict (fw : framework) (d : dict) : option json :=
  if bool_decide (map_Forall (fun _ v => is_Some (json_of_value fw v)) d)
  then Some (JObj (omap (json_of_value fw) d))
  else None.

Definition json_of_response (fw : framework) (r : response) : option json :=
  match r with
  | RSession s => json_of_dict fw (GameSession.model_dump s)
  | RLeaderboard entries =>
      JArr <$> mapM (fun e => json_of_dict fw (LeaderboardEntry.model_dump e)) entries
  | RStats stats => json_of_dict fw stats
  | RRoot msg => json_of_dict fw msg
  end.

(** A handler's outcome as a response: 200 with the encoded result. *)
Definition respond (fw : framework) (x : result response) : http_response :=
  match x with
  | Ok r =>
      match json_of_response fw r with
      | Some j => {| status_code := 200; content := Some j |}
      | None => {| status_code := 500; content := error_content fw ServerError |}
      end
  | Err e => {| status_code := status_of_error e; content := error_content fw e |}
  end.

(** [strip_prefix p s]: what follows [p] in [s]. *)
Fixpoint strip_prefix (p s : string) : option string :=
  match p, s with
  | EmptyString, _ => Some s
  | String a p', String b s' => if Ascii.eqb a b then strip_prefix p' s' else None
  | String _ _, EmptyString => None
  end.

(** Characters that need no decoding in a query string. *)
Definition plain_char (c : ascii) : bool :=
  let n := nat_of_ascii c in
  ((48 <=? n) && (n <=? 57) || (65 <=? n) && (n <=? 90)
   || (97 <=? n) && (n <=? 122) || (n =? 45))%nat.

Fixpoint plain (s : string) : bool :=
  match s with
  | EmptyString => true
  | String c r => plain_char c && plain r
  end.

(** The routes of [api_router], prefix ["/api"], as far as they are
    modelled: the four paths, the leaderboard also with the one query
    parameter [limit] given in plain characters.  [env] is what a running
    ingest draws. *)
Definition route `{Runtime} (base : string) (env : draws) (req : http_request)
    : option request :=
  match req with
  | HttpGet url =>
      match strip_prefix (base ++ "/api") url with
      | Some rest =>
          if String.eqb rest "/" then Some GetRoot
          else if String.eqb rest "/game/stats" then Some GetGameStats
          else if String.eqb rest "/game/leaderboard" then Some (GetGameLeaderboard None)
          else match strip_prefix "/game/leaderboard?limit=" rest with
               | Some s => if plain s then Some (GetGameLeaderboard (Some s)) else None
               | None => None
               end
      | None => None
      end
  | HttpPost url payload =>
      match strip_prefix (base ++ "/api") url with
      | Some rest =>
          if String.eqb rest "/game/session" then Some (PostGameSession env payload)
          else None
      | None => None
      end
  end%string.

(** The state behind the interface: the store and how many sessions'
    worth of [uuid4] and [now] have been drawn. *)
Abbreviation world := (DB * nat)%type.

(** The service at [base], answering one request.  An ingest draws when
    its body passes validation, that is when the handler runs. *)
Definition app `{Runtime} (fw : framework) (envs : nat -> draws) (base : string)
    (req : http_request) (w : world) : option http_response * world :=
  let '(db, k) := w in
  match route base (envs k) req with
  | Some r =>
      let '(x, db') := serve r db in
      let k' := match r with
                | PostGameSession _ body =>
                    if GameSessionCreate.validate body is Some _ then S k else k
                | _ => k
                end in
      (Some (respond fw x), (db', k'))
  | None => (Some (elsewhere fw req), (db, k))
  end.

(** ** The test client (backend_test.py) *)

Module Tester.
(** [data.get(key)]: only a [dict] has it; a missing key reads [None]. *)
Definition py_get (data : json) (key : string) : option json :=
  match data with
  | JObj o => Some (default JNull (o !! key))
  | _ => None
  end.

(** [x[:8]]: strings and lists can be sliced. *)
Definition py_slice8 (x : json) : option json :=
  match x with
  | JStr s => Some (JStr (String.substring 0 8 s))
  | JArr l => Some (JArr (take 8 l))
  | _ => None
  end.

(** [len(data)]: strings, lists and dicts have a length. *)
Definition py_len (data : json) : option nat :=
  match data with
  | JStr s => Some (String.length s)
  | JArr l => Some (length l)
  | JObj o => Some (size o)
  | _ => None
  end.

(** [class VastUnknownAPITester]; [printed] is what [log_test] has
    printed: the name of each test and its verdict. *)
Record t := {
  base_url : string;
  api_url : string;
  tests_run : nat;
  tests_passed : nat;
  session_id : json;
  printed : list (string * bool)
}.

Definition default_base_url : string :=
  "https://void-navigator-1.preview.emergentagent.com".

(** [__init__] *)
Definition init (base_url : string) : t :=
  {| base_url := base_url;
     api_url := (base_url ++ "/api")%string;
     tests_run := 0;
     tests_passed := 0;
     session_id := JNull;
     printed := [] |}.

Definition set_session_id (sid : json) (self : t) : t :=
  {| base_url := base_url self; api_url := api_url self;
     tests_run := tests_run self; tests_passed := tests_passed self;
     session_id := sid; printed := printed self |}.

(** [log_test] *)
Definition log_test (name : string) (success : bool) (self : t) : bool * t :=
  (success,
   {| base_url := base_url self; api_url := api_url self;
      tests_run := S (tests_run self);
      tests_passed := if success then S (tests_passed self) else tests_passed self;
      session_id := session_id self;
      printed := printed self ++ [(name, success)] |}).

Section Tests.
(** How requests reach a service and what comes back; [None] is an
    exception raised by [requests]. *)
Context {W : Type} (send : http_request -> W -> option http_response * W).

(** Each test runs in [try: ... except Exception], so an exception while
    the response is examined makes the verdict [False]; here the
    examination yields [None] then. *)

(** [test_api_root] *)
Definition test_api_root (self : t) (w : W) : bool * t * W :=
  let '(response, w) := send (HttpGet (api_url self ++ "/")%string) w in
  let outcome :=
    response ← response;
    let success := bool_decide (status_code response = 200) in
    if success
    then data ← content response; _ ← py_get data "message"; Some success
    else Some success in
  (log_test "API Root" (default false outcome) self, w).

(** [test_create_game_session] *)
Definition test_payload : dict :=
  <["score" := VInt 150]>
    (<["survival_time" := VFloat (51 # 2)]>
       (<["complexity_peak" := VFloat (175 # 2)]> ∅)).

Definition test_create_game_session (self : t) (w : W) : bool * t * W :=
  let '(response, w) :=
    send (HttpPost (api_url self ++ "/game/session")%string test_payload) w in
  let '(outcome, self) :=
    match response with
    | None => (None, self)
    | Some response =>
        let success := bool_decide (status_code response = 200
                                    \/ status_code response = 201) in
        if success
        then match content response with
             | None => (None, self)
             | Some data =>
                 match py_get data "session_id" with
                 | None => (None, self)
                 | Some sid =>
                     let self := set_session_id sid self in
                     (_ ← py_slice8 (session_id self); _ ← py_get data "score";
                      Some success, self)
                 end
             end
        else (Some success, self)
    end in
  (log_test "Create Game Session" (default false outcome) self, w).

(** [test_get_leaderboard] *)
Definition test_get_leaderboard (self : t) (w : W) : bool * t * W :=
  let '(response, w) :=
    send (HttpGet (api_url self ++ "/game/leaderboard?limit=5")%string) w in
  let outcome :=
    response ← response;
    let success := bool_decide (status_code response = 200) in
    if success
    then data ← content response;
         _ ← py_len data;
         match data with
         | JArr (first_entry :: _) => _ ← py_get first_entry "score"; Some success
         | _ => Some success
         end
    else Some success in
  (log_test "Get Leaderboard" (default false outcome) self, w).

(** [test_get_stats] *)
Definition test_get_stats (self : t) (w : W) : bool * t * W :=
  let '(response, w) := send (HttpGet (api_url self ++ "/game/stats")%string) w in
  let outcome :=
    response ← response;
    let success := bool_decide (status_code response = 200) in
    if success
    then data ← content response;
         _ ← py_get data "total_games";
         _ ← py_get data "avg_score";
         _ ← py_get data "highest_score";
         Some success
    else Some success in
  (log_test "Get Game Stats" (default false outcome) self, w).

(** [test_invalid_session_data] *)
Definition invalid_payload : dict := <["score" := VStr "invalid"]> ∅.

Definition test_invalid_session_data (self : t) (w : W) : bool * t * W :=
  let '(response, w) :=
    send (HttpPost (api_url self ++ "/game/session")%string invalid_payload) w in
  let outcome :=
    response ← response;
    Some (bool_decide (status_code response = 400 \/ status_code response = 422)) in
  (log_test "Invalid Session Data Validation" (default false outcome) self, w).

(** [run_all_tests] *)
Definition run_all_tests (self : t) (w : W) : bool * t * W :=
  let '(api_available, self, w) := test_api_root self w in
  if negb api_available then (false, self, w)
  else
    let '(_, self, w) := test_create_game_session self w in
    let '(_, self, w) := test_get_leaderboard self w in
    let '(_, self, w) := test_get_stats self w in
    let '(_, self, w) := test_invalid_session_data self w in
    (bool_decide (tests_passed self = tests_run self), self, w).

(** [main]: the exit code. *)
Definition main (w : W) : Z * W :=
  let '(success, _, w) := run_all_tests (init default_base_url) w in
  (if success then 0 else 1, w).
End Tests.
End Tester.

(** What running one test does to the tester: the name and the verdict
    are printed and counted, the addresses stay. *)
Definition advanced (name : string) (ok : bool) (self self' : Tester.t) : Prop :=
  Tester.base_url self' = Tester.base_url self /\
  Tester.api_url self' = Tester.api_url self /\
  Tester.tests_run self' = S (Tester.tests_run self) /\
  Tester.tests_passed self'
  = (if ok then S (Tester.tests_passed self) else Tester.tests_passed self) /\
  Tester.printed self' = Tester.printed self ++ [(name, ok)].

(** A body that the leaderboard test accepts: it has a length and, when
    it is a list that is not empty, its first element is an object. *)
Definition leaderboard_body_accepted (data : json) : bool :=
  match data with
  | JStr _ | JObj _ | JArr [] | JArr (JObj _ :: _) => true
  | _ => false
  end.

(** The names of the five tests, in the order of [run_all_tests]. *)
Definition test_names : list string :=
  [ "API Root"; "Create Game Session"; "Get Leaderboard"; "Get Game Stats";
    "Invalid Session Data Validation" ].

(** A value that can be sliced: a string or a list. *)
Definition sliceable (x : json) : bool :=
  match x with
  | JStr _ | JArr _ => true
  | _ => false
  end.

(** ** Concrete services

    A framework that answers 404 without a body outside the routes and
    renders instants like [Lax.runtime]; a service that draws the fourth
    environment of [Example]; and no service at all, where every request
    raises. *)
Module ServiceExample.
Definition fw : framework :=
  {| elsewhere := fun _ => {| status_code := 404; content := None |};
     json_datetime := Lax.str_of_int;
     error_content := fun _ => None |}.

Definition envs (k : nat) : draws := Example.env4.

Definition service : http_request -> world -> option http_response * world :=
  app (H := Lax.runtime) fw envs Tester.default_base_url.

Definition offline (req : http_request) (w : unit) : option http_response * unit :=
  (None, w).

(** The body of [Example.body4] with an identifier of the client's. *)
Definition body4_with_id : dict :=
  <["session_id" := VStr "chosen-by-the-client"]> Example.body4.
End ServiceExample.

(** * Properties *)

(** ** The monad *)

Lemma bind_ok {A B} (m : M A) (k : A -> M B) db a db' :
  m db = (Ok a, db') -> bind m k db = k a db'.
Proof. unfold bind. by intros ->. Qed.

Lemma bind_err {A B} (m : M A) (k : A -> M B) db e db' :
  m db = (Err e, db') -> bind m k db = (Err e, db').
Proof. unfold bind. by intros ->. Qed.

Lemma try_some {A} (o : option A) e a db : o = Some a -> try o e db = (Ok a, db).
Proof. by intros ->. Qed.

Lemma try_none {A} (o : option A) e db : o = None -> try o e db = (Err e, db).
Proof. by intros ->. Qed.

(** ** The sort order *)

Lemma bson_leb_spec a b :
  bson_leb a b = true <->
  bson_bracket a < bson_bracket b \/
  (bson_bracket a = bson_bracket b /\ (bson_number a <= bson_number b)%Q).
Proof.
  unfold bson_leb.
  rewrite orb_true_iff, andb_true_iff, Z.ltb_lt, Z.eqb_eq, Qle_bool_iff.
  tauto.
Qed.

Lemma bson_leb_total a b : bson_leb a b = true \/ bson_leb b a = true.
Proof.
  rewrite !bson_leb_spec.
  destruct (Z.lt_trichotomy (bson_bracket a) (bson_bracket b)) as [?|[E|?]]; auto.
  destruct (Qlt_le_dec (bson_number b) (bson_number a)) as [Hlt|Hle].
  - right. right. split; [done|]. by apply Qlt_le_weak.
  - left. right. done.
Qed.

Lemma bson_leb_trans a b c :
  bson_leb a b = true -> bson_leb b c = true -> bson_leb a c = true.
Proof.
  rewrite !bson_leb_spec.
  intros [?|[E1 L1]] [?|[E2 L2]]; try (left; lia).
  right. split; [lia|]. by apply Qle_trans with (bson_number b).
Qed.

#[global] Instance sort_before_total key : Total (sort_before key).
Proof. intros a b. unfold sort_before. destruct (bson_leb_total (field key a) (field key b)); auto. Qed.

#[global] Instance sort_before_trans key : Transitive (sort_before key).
Proof. intros a b c. unfold sort_before. eauto using bson_leb_trans. Qed.

Lemma sort_desc_sorted key docs : StronglySorted (sort_before key) (sort_desc key docs).
Proof. apply StronglySorted_merge_sort; apply _. Qed.

Lemma sort_desc_perm key docs : sort_desc key docs ≡ₚ docs.
Proof. apply merge_sort_Permutation. Qed.

Lemma StronglySorted_take {A} (R : relation A) n l :
  StronglySorted R l -> StronglySorted R (take n l).
Proof.
  intros Hl. rewrite <- (take_drop n l) in Hl.
  by apply StronglySorted_app_1_l in Hl.
Qed.

Lemma StronglySorted_lookup {A} (R : relation A) l i j x y :
  StronglySorted R l -> (i < j)%nat -> l !! i = Some x -> l !! j = Some y -> R x y.
Proof.
  intros Hl. revert i j. induction Hl as [|a l Hl IH Ha]; intros i j Hij Hi Hj.
  - by rewrite lookup_nil in Hi.
  - destruct j as [|j]; [lia|]. destruct i as [|i]; simpl in *.
    + injection Hi as ->. rewrite Forall_forall in Ha. apply Ha.
      by eapply list_elem_of_lookup_2.
    + eapply IH; [|done..]. lia.
Qed.

(** ** Session documents through the leaderboard *)

Section SessionDocs.
Context `{Runtime}.

Lemma session_doc_inv d :
  session_doc d = true ->
  exists s ts,
    d !! "session_id" = Some (VStr (doc_session_id d)) /\
    d !! "score" = Some (VInt (doc_score d)) /\
    d !! "survival_time" = Some (VFloat (doc_survival_time d)) /\
    d !! "complexity_peak" = Some (VFloat (doc_complexity_peak d)) /\
    d !! "timestamp" = Some (VStr s) /\ fromisoformat s = Some ts.
Proof.
  unfold session_doc, doc_session_id, doc_score, doc_survival_time,
    doc_complexity_peak.
  destruct (d !! "session_id") as [[]|]; try done.
  destruct (d !! "score") as [[]|]; try done.
  destruct (d !! "survival_time") as [[]|]; try done.
  destruct (d !! "complexity_peak") as [[]|]; try done.
  destruct (d !! "timestamp") as [[| | |iso| |]|]; try done.
  intros [ts Hts]%bool_decide_eq_true. by exists iso, ts.
Qed.

Lemma annotate_session_docs sessions idx db :
  Forall (fun d => session_doc d = true) sessions ->
  annotate idx sessions db = (Ok (imap (fun i => annotated (idx + i)) sessions), db).
Proof.
  intros Hs. revert idx. induction Hs as [|d l Hd Hl IH]; intros idx; [done|].
  destruct (session_doc_inv d Hd) as (s & ts & _ & _ & _ & _ & Hts & Hp).
  cbn [annotate imap].
  rewrite (bind_ok _ _ _ (VStr s) db) by (by apply try_some).
  cbn beta iota.
  rewrite (bind_ok _ _ db (<["timestamp" := VDatetime ts]> d) db); last first.
  { by rewrite (bind_ok _ _ _ ts db) by (by apply try_some). }
  rewrite (bind_ok _ _ _ _ _ (IH (S idx))).
  unfold ret, annotated. rewrite Hts, Hp, Nat.add_0_r.
  do 3 f_equal. apply imap_ext. intros i x _. simpl. do 2 f_equal. lia.
Qed.

Lemma validate_annotated idx d :
  session_doc d = true ->
  LeaderboardEntry.validate (annotated idx d) = Some (entry_at idx d).
Proof.
  intros Hd.
  destruct (session_doc_inv d Hd) as (s & ts & Hsid & Hsc & Hst & Hcp & Hts & Hp).
  unfold LeaderboardEntry.validate, annotated. rewrite Hts, Hp.
  rewrite !lookup_insert. cbn [decide]. simpl.
  rewrite Hsid, Hsc, Hst, Hcp. simpl.
  rewrite !int_validate_int, !float_validate_float. done.
Qed.

Lemma validate_annotated_all sessions idx :
  Forall (fun d => session_doc d = true) sessions ->
  mapM LeaderboardEntry.validate (imap (fun i => annotated (idx + i)) sessions)
  = Some (imap (fun i => entry_at (idx + i)) sessions).
Proof.
  intros Hs. revert idx. induction Hs as [|d l Hd Hl IH]; intros idx; [done|].
  cbn [imap mapM]. rewrite Nat.add_0_r, validate_annotated by done. simpl.
  rewrite (imap_ext _ (fun i => annotated (S idx + i))) by (intros; simpl; f_equal; lia).
  rewrite IH. simpl. do 2 f_equal.
  apply imap_ext. intros; simpl; f_equal; lia.
Qed.
End SessionDocs.

(** ** What the leaderboard returns *)

Section Leaderboard.
Context `{Runtime}.

Lemma session_doc_delete_id d : session_doc (delete "_id" d) = session_doc d.
Proof. unfold session_doc. by rewrite !lookup_delete_ne by done. Qed.

Lemma selected_session_docs limit db :
  session_store db -> Forall (fun d => session_doc d = true) (selected limit db).
Proof.
  intros Hdb. unfold selected, cursor_limit.
  assert (Forall (fun d => session_doc d = true)
            (sort_desc "score" (delete "_id" <$> collection game_sessions db))) as Hs.
  { rewrite sort_desc_perm. apply Forall_fmap.
    eapply Forall_impl; [exact Hdb|]. intros d Hd. simpl.
    by rewrite session_doc_delete_id. }
  destruct (limit =? 0); repeat apply Forall_take; done.
Qed.

Lemma get_leaderboard_ok limit db :
  session_store db -> 0 <= limit ->
  get_leaderboard limit db
  = (Ok (imap (fun i => annotated (0 + i)) (selected limit db)), db).
Proof.
  intros Hdb Hl. unfold get_leaderboard.
  rewrite (bind_ok _ _ db (delete "_id" <$> collection game_sessions db) db) by done.
  rewrite (bind_ok _ _ db (selected limit db) db).
  - by apply annotate_session_docs, selected_session_docs.
  - apply try_some. unfold to_list.
    destruct (Z.ltb_spec limit 0); [lia|done].
Qed.

Lemma get_leaderboard_negative limit db :
  limit < 0 -> get_leaderboard limit db = (Err ServerError, db).
Proof.
  intros Hl. unfold get_leaderboard.
  rewrite (bind_ok _ _ db (delete "_id" <$> collection game_sessions db) db) by done.
  apply bind_err, try_none. unfold to_list.
  destruct (Z.ltb_spec limit 0); [done|lia].
Qed.

Lemma get_game_leaderboard_limit limit n db :
  requested limit = Some n ->
  get_game_leaderboard limit db
  = bind (get_leaderboard n)
      (fun sessions => try (mapM LeaderboardEntry.validate sessions) ServerError) db.
Proof.
  intros Hn. unfold get_game_leaderboard.
  rewrite (bind_ok _ _ db n db); [done|].
  destruct limit as [s|]; simpl in Hn.
  - by apply try_some.
  - by injection Hn as <-.
Qed.

Lemma get_game_leaderboard_ok limit n db :
  session_store db -> requested limit = Some n -> 0 <= n ->
  get_game_leaderboard limit db
  = (Ok (imap (fun i => entry_at i) (selected n db)), db).
Proof.
  intros Hdb Hn Hpos. rewrite (get_game_leaderboard_limit _ n) by done.
  rewrite (bind_ok _ _ _ _ _ (get_leaderboard_ok n db Hdb Hpos)).
  apply try_some. apply (validate_annotated_all _ 0).
  by apply selected_session_docs.
Qed.

Lemma get_game_leaderboard_negative limit n db :
  requested limit = Some n -> n < 0 ->
  get_game_leaderboard limit db = (Err ServerError, db).
Proof.
  intros Hn Hneg. rewrite (get_game_leaderboard_limit _ n) by done.
  by apply bind_err, get_leaderboard_negative.
Qed.

Lemma get_game_leaderboard_invalid limit db :
  requested limit = None ->
  get_game_leaderboard limit db = (Err ValidationError, db).
Proof.
  intros Hn. unfold get_game_leaderboard.
  apply bind_err. destruct limit as [s|]; simpl in Hn; [|done].
  by apply try_none.
Qed.

(** The store is only read, whatever the outcome. *)
Lemma annotate_reads sessions idx db : (annotate idx sessions db).2 = db.
Proof.
  revert idx. induction sessions as [|d l IH]; intros idx; [done|].
  cbn [annotate]. unfold bind, try, ret, raise.
  destruct (d !! "timestamp") as [ts|]; [|done].
  assert (forall d', (let (r, db') := annotate (S idx) l db in
                      match r with
                      | Ok rest => (Ok (<["rank" := VInt (Z.of_nat idx + 1)]> d' :: rest), db')
                      | Err e => (Err e, db')
                      end).2 = db) as Hrest.
  { intros d'. specialize (IH (S idx)). by destruct (annotate (S idx) l db) as [[?|?] ?]. }
  destruct ts; try apply Hrest.
  destruct (fromisoformat s); [apply Hrest|done].
Qed.

Lemma get_leaderboard_reads limit db : (get_leaderboard limit db).2 = db.
Proof.
  unfold get_leaderboard, bind, find_without_id, try, ret, raise.
  destruct (to_list _ _); [|done]. apply annotate_reads.
Qed.

Lemma get_game_leaderboard_reads limit db : (get_game_leaderboard limit db).2 = db.
Proof.
  destruct (requested limit) as [n|] eqn:Hn.
  - rewrite (get_game_leaderboard_limit _ n) by done. unfold bind.
    pose proof (get_leaderboard_reads n db) as Hr.
    destruct (get_leaderboard n db) as [[sessions|e] db']; simpl in *; subst; [|done].
    unfold try. by destruct (mapM _ _).
  - by rewrite get_game_leaderboard_invalid.
Qed.
End Leaderboard.

Section LeaderboardOrder.
Context `{Runtime}.

Lemma sort_before_score a b :
  session_doc a = true -> session_doc b = true ->
  sort_before "score" a b -> doc_score b <= doc_score a.
Proof.
  intros Ha Hb.
  destruct (session_doc_inv a Ha) as (? & ? & _ & Hsa & _).
  destruct (session_doc_inv b Hb) as (? & ? & _ & Hsb & _).
  unfold sort_before, field. rewrite Hsa, Hsb. simpl.
  rewrite bson_leb_spec. simpl. intros [?|[_ Hle]]; [lia|].
  by rewrite Zle_Qle.
Qed.

Lemma selected_sorted limit db :
  StronglySorted (sort_before "score") (selected limit db).
Proof.
  unfold selected, cursor_limit.
  destruct (limit =? 0); repeat apply StronglySorted_take; apply sort_desc_sorted.
Qed.

(** A returned page is the selected documents, each with its position. *)
Lemma page_inv limit db page :
  session_store db ->
  (get_game_leaderboard limit db).1 = Ok page ->
  exists n, requested limit = Some n /\ 0 <= n /\
            page = imap (fun i => entry_at i) (selected n db).
Proof.
  intros Hdb Hpage. destruct (requested limit) as [n|] eqn:Hn.
  - destruct (Z.lt_ge_cases n 0) as [Hneg|Hpos].
    + by rewrite (get_game_leaderboard_negative _ n) in Hpage.
    + rewrite (get_game_leaderboard_ok _ n) in Hpage by done.
      injection Hpage as <-. by exists n.
  - by rewrite get_game_leaderboard_invalid in Hpage.
Qed.
End LeaderboardOrder.

(** C1.  Every page that the leaderboard returns is ordered by score,
    highest first, and each entry carries as rank its 1-based position in
    that page; so the entry of rank 1 has the highest score of the page.
    The rank is the position in the page, whatever else is stored. *)
Theorem leaderboard_sorted_and_ranked `{Runtime} (db : DB) (limit : option string)
    (page : list LeaderboardEntry.t) :
  session_store db ->
  (get_game_leaderboard limit db).1 = Ok page ->
  (forall i j ei ej,
      (i < j)%nat -> page !! i = Some ei -> page !! j = Some ej ->
      LeaderboardEntry.score ej <= LeaderboardEntry.score ei) /\
  (forall i e, page !! i = Some e -> LeaderboardEntry.rank e = Some (Z.of_nat i + 1)) /\
  (forall e1 e,
      e1 ∈ page -> LeaderboardEntry.rank e1 = Some 1 -> e ∈ page ->
      LeaderboardEntry.score e <= LeaderboardEntry.score e1).
Proof.
  intros Hdb Hpage.
  destruct (page_inv _ _ _ Hdb Hpage) as (n & Hn & Hpos & ->).
  pose proof (selected_session_docs n db Hdb) as Hdocs.
  pose proof (selected_sorted n db) as Hsorted.
  rewrite Forall_lookup in Hdocs.
  assert (forall i j ei ej,
      (i < j)%nat ->
      imap (fun i => entry_at i) (selected n db) !! i = Some ei ->
      imap (fun i => entry_at i) (selected n db) !! j = Some ej ->
      LeaderboardEntry.score ej <= LeaderboardEntry.score ei) as Hord.
  { intros i j ei ej Hij Hi Hj. rewrite list_lookup_imap in Hi, Hj.
    destruct (selected n db !! i) as [di|] eqn:Hdi; [|done].
    destruct (selected n db !! j) as [dj|] eqn:Hdj; [|done].
    injection Hi as <-. injection Hj as <-. simpl.
    apply sort_before_score; eauto.
    eapply StronglySorted_lookup; eauto. }
  assert (forall i e,
      imap (fun i => entry_at i) (selected n db) !! i = Some e ->
      LeaderboardEntry.rank e = Some (Z.of_nat i + 1)) as Hrank.
  { intros i e Hi. rewrite list_lookup_imap in Hi.
    destruct (selected n db !! i); [|done]. by injection Hi as <-. }
  split; [exact Hord|]. split; [exact Hrank|].
  intros e1 e [i Hi]%list_elem_of_lookup_1 Hr [j Hj]%list_elem_of_lookup_1.
  rewrite (Hrank _ _ Hi) in Hr.
  assert (i = 0%nat) as -> by (injection Hr; lia).
  destruct j as [|j].
  - rewrite Hi in Hj. injection Hj as ->. lia.
  - eapply (Hord 0%nat (S j)); eauto. lia.
Qed.

(** ** Rounding *)





(** ** What the statistics return *)

Section Stats.
Context `{Runtime}.











End Stats.


(** C3.  On an empty store the statistics succeed and are all zero:
    [total_games], [avg_score], [avg_survival_time] and [highest_score]
    are the integer 0, none is null; the store is left as it is. *)
Theorem stats_of_empty_store `{Runtime} (db : DB) :
  collection game_sessions db = [] ->
  exists stats,
    get_stats db = (Ok stats, db) /\
    stats = stats_dict (VInt 0) (VInt 0) (VInt 0) (VInt 0) /\
    stats !! "total_games" = Some (VInt 0) /\
    stats !! "avg_score" = Some (VInt 0) /\
    stats !! "avg_survival_time" = Some (VInt 0) /\
    stats !! "highest_score" = Some (VInt 0) /\
    map_Forall (fun _ v => v <> VNull) stats.
Proof.
  intros Hempty. eexists. split.
  { unfold get_stats, bind, count_documents. by rewrite Hempty. }
  repeat (split; [done|]).
  unfold stats_dict. repeat (apply map_Forall_insert_2; [done|]).
  apply map_Forall_empty.
Qed.

(** ** What the ingest does *)

Section Ingest.
Context `{Runtime}.

Lemma GameSession_new_dump env input :
  GameSession.new env (GameSessionCreate.model_dump input) = Some (new_session env input).
Proof.
  unfold GameSession.new, GameSessionCreate.model_dump.
  rewrite !lookup_insert, lookup_empty. simpl.
  by rewrite int_validate_int, !float_validate_float.
Qed.

Lemma bson_encodable_stored s :
  bson_encodable (stored_doc s)
  = (int64_min <=? GameSession.score s) && (GameSession.score s <=? int64_max).
Proof.
  assert (stored_doc s
          = <["session_id" := VStr (GameSession.session_id s)]>
              (<["score" := VInt (GameSession.score s)]>
                 (<["survival_time" := VFloat (GameSession.survival_time s)]>
                    (<["complexity_peak" := VFloat (GameSession.complexity_peak s)]>
                       (<["timestamp" := VStr (isoformat (GameSession.timestamp s))]> ∅)))))
    as ->.
  { unfold stored_doc, GameSession.model_dump. apply map_eq. intros k.
    rewrite !lookup_insert. repeat case_decide; congruence. }
  unfold bson_encodable.
  apply eq_true_iff_eq. rewrite bool_decide_eq_true.
  rewrite !map_Forall_insert by (by rewrite ?lookup_insert, ?lookup_empty).
  simpl. split; [tauto|]. intros ->. repeat split. apply map_Forall_empty.
Qed.

Lemma create_game_session_spec env input db :
  let s := new_session env input in
  create_game_session env input db
  = if bson_encodable (stored_doc s)
    then (Ok s, <[game_sessions :=
                    collection game_sessions db
                    ++ [with_id (length (collection game_sessions db)) (stored_doc s)]]> db)
    else (Err ServerError, db).
Proof.
  cbv zeta. unfold create_game_session.
  rewrite (bind_ok _ _ db (new_session env input) db)
    by (apply try_some, GameSession_new_dump).
  rewrite (bind_ok _ _ db (isoformat (now env)) db) by done.
  fold (stored_doc (new_session env input)).
  unfold bind, insert_one. by destruct (bson_encodable _).
Qed.

Lemma post_game_session_rejected env body db :
  GameSessionCreate.validate body = None ->
  post_game_session env body db = (Err ValidationError, db).
Proof. intros Hv. unfold post_game_session. by apply bind_err, try_none. Qed.

Lemma post_game_session_accepted env body input db :
  GameSessionCreate.validate body = Some input ->
  post_game_session env body db = create_game_session env input db.
Proof.
  intros Hv. unfold post_game_session.
  by rewrite (bind_ok _ _ db input db) by (by apply try_some).
Qed.

Lemma session_doc_stored n s : session_doc (with_id n (stored_doc s)) = true.
Proof.
  unfold with_id, stored_doc, GameSession.model_dump.
  rewrite !lookup_insert, lookup_empty. simpl.
  unfold session_doc. rewrite !lookup_insert, lookup_empty. simpl.
  apply bool_decide_eq_true. rewrite fromisoformat_isoformat. by eexists.
Qed.
End Ingest.

(** ** The store under requests *)

Section Transitions.
Context `{Runtime}.

Lemma collection_insert name docs (db : DB) :
  collection name (<[name := docs]> db) = docs.
Proof. unfold collection. by rewrite lookup_insert_eq. Qed.

Lemma get_stats_reads db : (get_stats db).2 = db.
Proof.
  unfold get_stats, bind, count_documents, aggregate_group, try, ret, raise.
  destruct (_ =? 0); [done|].
  destruct (to_list 1 _) as [[|stats ?]|]; try done.
  destruct (stats !! "avg_score" ≫= py_round1); [|done].
  destruct (stats !! "avg_survival_time" ≫= py_round1); [|done].
  by destruct (stats !! "max_score").
Qed.

Lemma post_game_session_store env body db :
  match post_game_session env body db with
  | (Ok s, db') =>
      db' = <[game_sessions :=
                collection game_sessions db
                ++ [with_id (length (collection game_sessions db)) (stored_doc s)]]> db
  | (Err _, db') => db' = db
  end.
Proof.
  destruct (GameSessionCreate.validate body) as [input|] eqn:Hv.
  - rewrite (post_game_session_accepted _ _ input) by done.
    rewrite create_game_session_spec. by destruct (bson_encodable _).
  - by rewrite post_game_session_rejected.
Qed.

(** One request: a created session appends its document, anything else
    leaves the store as it is. *)
Lemma serve_store r db :
  match serve r db with
  | (Ok (RSession s), db') =>
      db' = <[game_sessions :=
                collection game_sessions db
                ++ [with_id (length (collection game_sessions db)) (stored_doc s)]]> db
  | (_, db') => db' = db
  end.
Proof.
  destruct r as [env body|limit| |]; unfold serve, bind.
  - pose proof (post_game_session_store env body db) as Hs.
    by destruct (post_game_session env body db) as [[s|e] db'].
  - pose proof (get_game_leaderboard_reads limit db) as Hr.
    by destruct (get_game_leaderboard limit db) as [[l|e] db'].
  - pose proof (get_stats_reads db) as Hr.
    by destruct (get_stats db) as [[l|e] db'].
  - done.
Qed.

Lemma serve_collection r db :
  collection game_sessions (serve r db).2 = collection game_sessions db \/
  exists s, (serve r db).1 = Ok (RSession s) /\
            collection game_sessions (serve r db).2
            = collection game_sessions db
              ++ [with_id (length (collection game_sessions db)) (stored_doc s)].
Proof.
  pose proof (serve_store r db) as Hs.
  destruct (serve r db) as [[[s| | |]|e] db']; simpl; subst; auto.
  right. exists s. by rewrite collection_insert.
Qed.


Lemma run_cons r rs db : run (r :: rs) db = run rs (serve r db).2.
Proof.
  unfold run. simpl. destruct (serve r db) as [x db']. simpl.
  by destruct (serve_all rs db').
Qed.


Lemma run_prefix rs db :
  collection game_sessions db `prefix_of` collection game_sessions (run rs db).
Proof.
  revert db. induction rs as [|r rs IH]; intros db; [done|].
  rewrite run_cons. etrans; [|apply IH].
  destruct (serve_collection r db) as [->|(s & _ & ->)]; [done|].
  by apply prefix_app_r.
Qed.

Lemma serve_frame r db name :
  name <> game_sessions -> (serve r db).2 !! name = db !! name.
Proof.
  intros Hn. pose proof (serve_store r db) as Hs.
  destruct (serve r db) as [[[s| | |]|e] db']; simpl; subst; try done.
  by rewrite lookup_insert_ne.
Qed.

Lemma run_frame rs db name :
  name <> game_sessions -> run rs db !! name = db !! name.
Proof.
  intros Hn. revert db. induction rs as [|r rs IH]; intros db; [done|].
  by rewrite run_cons, IH, serve_frame.
Qed.
End Transitions.

(** C4.  An ingest whose body lacks one of [score], [survival_time],
    [complexity_peak], or holds there a value that is not convertible to
    the declared type, fails with a [ValidationError], and the store after
    the request is the store before it. *)
Theorem ingest_rejects_invalid_payload `{Runtime} (env : draws) (body : dict) (db : DB) :
  rejected int_validate "score" body \/
  rejected float_validate "survival_time" body \/
  rejected float_validate "complexity_peak" body ->
  post_game_session env body db = (Err ValidationError, db).
Proof.
  intros Hrej. apply post_game_session_rejected.
  unfold GameSessionCreate.validate. unfold rejected in Hrej.
  destruct (body !! "score") as [v1|]; simpl; [|done].
  destruct (int_validate v1); simpl; [|done].
  destruct (body !! "survival_time") as [v2|]; simpl; [|done].
  destruct (float_validate v2); simpl; [|done].
  destruct (body !! "complexity_peak") as [v3|]; simpl; [|done].
  destruct (float_validate v3); simpl; [|done].
  by destruct Hrej as [?|[?|?]].
Qed.

(** C9.  A request that creates a session appends exactly one document to
    [game_sessions] and changes no other collection; every other request,
    a rejected or failed ingest included, leaves the store as it is.  So
    under any sequence of requests the documents already stored stay, in
    place and unchanged, and the other collections stay as they are. *)
Theorem store_is_append_only `{Runtime} (r : request) (db : DB) :
  match serve r db with
  | (Ok (RSession s), db') =>
      (exists doc,
          collection game_sessions db' = collection game_sessions db ++ [doc]) /\
      (forall name, name <> game_sessions -> db' !! name = db !! name)
  | (_, db') => db' = db
  end /\
  (forall rs,
      collection game_sessions db `prefix_of` collection game_sessions (run rs db)) /\
  (forall rs name, name <> game_sessions -> run rs db !! name = db !! name).
Proof.
  split; [|split].
  - pose proof (serve_store r db) as Hs.
    destruct (serve r db) as [[[s| | |]|e] db']; try done. subst. split.
    + eexists. by rewrite collection_insert.
    + intros name Hn. by rewrite lookup_insert_ne.
  - intros rs. apply run_prefix.
  - intros rs name Hn. by apply run_frame.
Qed.

(** ** Session identifiers *)

Section SessionIds.
Context `{Runtime}.






End SessionIds.


(** ** From ingest to leaderboard *)

Section RoundTrip.
Context `{Runtime}.


Lemma post_game_session_ok env body db s db' :
  post_game_session env body db = (Ok s, db') ->
  exists input,
    GameSessionCreate.validate body = Some input /\ s = new_session env input /\
    db' = <[game_sessions :=
              collection game_sessions db
              ++ [with_id (length (collection game_sessions db)) (stored_doc s)]]> db.
Proof.
  intros Hp. pose proof (post_game_session_store env body db) as Hs.
  rewrite Hp in Hs. revert Hp.
  destruct (GameSessionCreate.validate body) as [input|] eqn:Hv.
  - rewrite (post_game_session_accepted _ _ input) by done.
    rewrite create_game_session_spec.
    destruct (bson_encodable _); [|done]. intros [= <- _]. by exists input.
  - by rewrite post_game_session_rejected.
Qed.


End RoundTrip.



Section LimitValidation.
Context `{Runtime}.

Lemma annotate_error sessions idx db e :
  (annotate idx sessions db).1 = Err e -> e = ServerError.
Proof.
  revert idx. induction sessions as [|d l IH]; intros idx; [done|].
  cbn [annotate]. unfold bind, try, ret, raise.
  destruct (d !! "timestamp") as [ts|]; [|by intros [= <-]].
  assert (forall d', (let (r, db') := annotate (S idx) l db in
                      match r with
                      | Ok rest => (Ok (<["rank" := VInt (Z.of_nat idx + 1)]> d' :: rest), db')
                      | Err e => (Err e, db')
                      end).1 = Err e -> e = ServerError) as Hrest.
  { intros d'. specialize (IH (S idx)).
    destruct (annotate (S idx) l db) as [[?|?] ?]; [done|]. simpl in *. auto. }
  destruct ts; try apply Hrest.
  destruct (fromisoformat s); [apply Hrest|by intros [= <-]].
Qed.

Lemma get_leaderboard_error n db e :
  (get_leaderboard n db).1 = Err e -> e = ServerError.
Proof.
  unfold get_leaderboard, bind, find_without_id, try, ret, raise.
  destruct (to_list _ _); [apply annotate_error|by intros [= <-]].
Qed.

Lemma get_game_leaderboard_error limit n db e :
  requested limit = Some n ->
  (get_game_leaderboard limit db).1 = Err e -> e = ServerError.
Proof.
  intros Hn. rewrite (get_game_leaderboard_limit _ n) by done. unfold bind.
  pose proof (get_leaderboard_error n db) as He.
  destruct (get_leaderboard n db) as [[sessions|e'] db']; simpl in *.
  - unfold try. destruct (mapM _ _); [done|]. by intros [= <-].
  - intros [= <-]. by apply He.
Qed.
End LimitValidation.

(** C5, as the code has it.  The leaderboard fails with a
    [ValidationError] exactly when a limit is given that is not
    convertible to an integer.  No check on the sign follows: the limit 0
    is accepted and yields the empty page. *)
Theorem leaderboard_validation_errors `{Runtime} (limit : option string) (db : DB) :
  ((get_game_leaderboard limit db).1 = Err ValidationError <->
   exists s, limit = Some s /\ int_validate (VStr s) = None) /\
  (requested limit = Some 0 -> get_game_leaderboard limit db = (Ok [], db)).
Proof.
  split; [split|].
  - intros He. destruct (requested limit) as [n|] eqn:Hn.
    + by apply (get_game_leaderboard_error _ n) in He.
    + destruct limit as [s|]; [|done]. by exists s.
  - intros (s & -> & Hs). by rewrite get_game_leaderboard_invalid.
  - intros Hz. by rewrite (get_game_leaderboard_limit _ 0) by done.
Qed.

Section Projection.
Context `{Runtime}.

Lemma annotated_timestamp i d :
  session_doc d = true -> exists t, annotated i d !! "timestamp" = Some (VDatetime t).
Proof.
  intros Hd. destruct (session_doc_inv d Hd) as (s & ts & _ & _ & _ & _ & Hts & Hp).
  exists ts. unfold annotated. rewrite Hts, Hp.
  rewrite lookup_insert_ne by done. by rewrite lookup_insert_eq.
Qed.
End Projection.

(** C10.  An entry of the leaderboard is sent with exactly the fields
    [session_id], [score], [survival_time], [complexity_peak] and [rank].
    The timestamp is not among them, although every stored document has
    one, the dictionaries that the handler returns still have it, and the
    session that an ingest returns has it. *)
Theorem leaderboard_entry_fields `{Runtime} (db : DB) (limit : option string)
    (page : list LeaderboardEntry.t) :
  session_store db ->
  (get_game_leaderboard limit db).1 = Ok page ->
  (forall e, e ∈ page ->
     dom (LeaderboardEntry.model_dump e)
     = ({[ "session_id"; "score"; "survival_time"; "complexity_peak"; "rank" ]}
        : gset string) /\
     LeaderboardEntry.model_dump e !! "timestamp" = None) /\
  (forall d, d ∈ collection game_sessions db -> is_Some (d !! "timestamp")) /\
  (forall n sessions x,
     (get_leaderboard n db).1 = Ok sessions -> x ∈ sessions ->
     is_Some (x !! "timestamp")) /\
  (forall env body s db',
     post_game_session env body db = (Ok s, db') ->
     GameSession.model_dump s !! "timestamp" = Some (VDatetime (now env))).
Proof.
  intros Hdb Hpage. split; [|split; [|split]].
  - intros e _. split; [|done].
    unfold LeaderboardEntry.model_dump.
    rewrite !dom_insert_L, dom_empty_L. set_solver.
  - intros d Hd. unfold session_store in Hdb. rewrite Forall_forall in Hdb.
    destruct (session_doc_inv d (Hdb d Hd)) as (s & ts & _ & _ & _ & _ & -> & _).
    by eexists.
  - intros n sessions x Hs Hx. destruct (Z.lt_ge_cases n 0) as [Hneg|Hpos].
    { by rewrite get_leaderboard_negative in Hs. }
    rewrite get_leaderboard_ok in Hs by done. injection Hs as <-.
    apply list_elem_of_lookup_1 in Hx as [i Hi]. rewrite list_lookup_imap in Hi.
    destruct (selected n db !! i) as [d|] eqn:Hd; [|done]. injection Hi as <-.
    pose proof (selected_session_docs n db Hdb) as Hdocs.
    rewrite Forall_lookup in Hdocs.
    destruct (annotated_timestamp i d (Hdocs _ _ Hd)) as [t Ht]. exists (VDatetime t).
    exact Ht.
  - intros env body s db' Hp.
    destruct (post_game_session_ok _ _ _ _ _ Hp) as (input & _ & -> & _). done.
Qed.

(** * The handlers on concrete requests *)

Section Examples.
Import Example.
#[local] Existing Instance Lax.runtime.

Lemma db3_session_store : session_store db3.
Proof. unfold session_store. apply (bool_decide_unpack _). vm_cast_no_check I. Qed.

Example leaderboard_top2 : get_game_leaderboard (Some "2") db3 = (Ok page2, db3).
Proof. vm_cast_no_check (eq_refl (Ok page2, db3)). Qed.

Example stats_db3 :
  (get_stats db3).1
  = Ok (stats_dict (VInt 3) (VFloat 20) (VFloat (137 # 10)) (VInt 30)).
Proof.
  vm_cast_no_check
    (eq_refl (Ok (stats_dict (VInt 3) (VFloat 20) (VFloat (137 # 10)) (VInt 30)))).
Qed.

Example ingest_session4 : post_game_session env4 body4 db3 = (Ok session4, db4).
Proof. vm_cast_no_check (eq_refl (Ok session4, db4)). Qed.

Example ingest_too_large :
  post_game_session env4 (payload (2 ^ 63) 1 1) db3 = (Err ServerError, db3).
Proof. vm_cast_no_check (eq_refl (@Err GameSession.t ServerError, db3)). Qed.

Example leaderboard_negative_limit :
  get_game_leaderboard (Some "-1") db3 = (Err ServerError, db3).
Proof. vm_cast_no_check (eq_refl (@Err (list LeaderboardEntry.t) ServerError, db3)). Qed.

Example leaderboard_limit_not_a_number :
  get_game_leaderboard (Some "ten") db3 = (Err ValidationError, db3).
Proof.
  vm_cast_no_check (eq_refl (@Err (list LeaderboardEntry.t) ValidationError, db3)).
Qed.

(** The limit 0 is an integer that is not positive; the leaderboard
    accepts it and answers with the empty page. *)
Lemma leaderboard_accepts_limit_zero :
  requested (Some "0") = Some 0 /\ 0 <= 0 /\
  (get_game_leaderboard (Some "0") db3).1 = Ok [] /\
  (get_game_leaderboard (Some "0") db3).1 <> Err ValidationError.
Proof. vm_compute. repeat split; discriminate. Qed.

Lemma leaderboard_sorted_and_ranked_witness :
  session_store db3 /\
  (get_game_leaderboard (Some "2") db3).1 = Ok page2 /\
  (forall i j ei ej,
      (i < j)%nat -> page2 !! i = Some ei -> page2 !! j = Some ej ->
      LeaderboardEntry.score ej <= LeaderboardEntry.score ei) /\
  (forall i e, page2 !! i = Some e -> LeaderboardEntry.rank e = Some (Z.of_nat i + 1)) /\
  (forall e1 e,
      e1 ∈ page2 -> LeaderboardEntry.rank e1 = Some 1 -> e ∈ page2 ->
      LeaderboardEntry.score e <= LeaderboardEntry.score e1).
Proof.
  assert (session_store db3) as Hdb
    by (unfold session_store; apply (bool_decide_unpack _); vm_compute; exact I).
  assert ((get_game_leaderboard (Some "2") db3).1 = Ok page2) as Hpage
    by (vm_compute; reflexivity).
  split; [exact Hdb|]. split; [exact Hpage|].
  exact (leaderboard_sorted_and_ranked db3 (Some "2") page2 Hdb Hpage).
Defined.


Lemma stats_of_empty_store_witness :
  collection game_sessions (∅ : DB) = [] /\
  exists stats,
    get_stats ∅ = (Ok stats, ∅) /\
    stats = stats_dict (VInt 0) (VInt 0) (VInt 0) (VInt 0) /\
    stats !! "total_games" = Some (VInt 0) /\
    stats !! "avg_score" = Some (VInt 0) /\
    stats !! "avg_survival_time" = Some (VInt 0) /\
    stats !! "highest_score" = Some (VInt 0) /\
    map_Forall (fun _ v => v <> VNull) stats.
Proof.
  assert (collection game_sessions (∅ : DB) = []) as Hempty by reflexivity.
  split; [exact Hempty|]. exact (stats_of_empty_store ∅ Hempty).
Defined.

Lemma ingest_rejects_invalid_payload_witness :
  (rejected int_validate "score" bad_body \/
   rejected float_validate "survival_time" bad_body \/
   rejected float_validate "complexity_peak" bad_body) /\
  post_game_session env1 bad_body db3 = (Err ValidationError, db3).
Proof.
  assert (rejected int_validate "score" bad_body \/
          rejected float_validate "survival_time" bad_body \/
          rejected float_validate "complexity_peak" bad_body) as Hrej
    by (left; vm_compute; reflexivity).
  split; [exact Hrej|]. exact (ingest_rejects_invalid_payload env1 bad_body db3 Hrej).
Defined.




Lemma leaderboard_entry_fields_witness :
  session_store db3 /\
  (get_game_leaderboard (Some "2") db3).1 = Ok page2 /\
  (forall e, e ∈ page2 ->
     dom (LeaderboardEntry.model_dump e)
     = ({[ "session_id"; "score"; "survival_time"; "complexity_peak"; "rank" ]}
        : gset string) /\
     LeaderboardEntry.model_dump e !! "timestamp" = None) /\
  (forall d, d ∈ collection game_sessions db3 -> is_Some (d !! "timestamp")) /\
  (forall n sessions x,
     (get_leaderboard n db3).1 = Ok sessions -> x ∈ sessions ->
     is_Some (x !! "timestamp")) /\
  (forall env body s db',
     post_game_session env body db3 = (Ok s, db') ->
     GameSession.model_dump s !! "timestamp" = Some (VDatetime (now env))).
Proof.
  assert (session_store db3) as Hdb
    by (unfold session_store; apply (bool_decide_unpack _); vm_compute; exact I).
  assert ((get_game_leaderboard (Some "2") db3).1 = Ok page2) as Hpage
    by (vm_compute; reflexivity).
  split; [exact Hdb|]. split; [exact Hpage|].
  exact (leaderboard_entry_fields db3 (Some "2") page2 Hdb Hpage).
Defined.
End Examples.

(** * Further properties of the handlers *)

Section More.
Context `{Runtime}.




Lemma stored_doc_dom n s :
  dom (with_id n (stored_doc s))
  = ({[ "_id"; "session_id"; "score"; "survival_time"; "complexity_peak";
        "timestamp" ]} : gset string).
Proof.
  unfold with_id, stored_doc, GameSession.model_dump.
  rewrite !lookup_insert, lookup_empty. simpl.
  rewrite !dom_insert_L, dom_empty_L. set_solver.
Qed.

Lemma stored_doc_timestamp n s :
  with_id n (stored_doc s) !! "timestamp"
  = Some (VStr (isoformat (GameSession.timestamp s))).
Proof.
  unfold with_id, stored_doc, GameSession.model_dump.
  rewrite !lookup_insert, lookup_empty. simpl.
  by rewrite !lookup_insert.
Qed.

End More.


(** X2.  The ingest reads the three declared fields of the body and
    nothing else: two bodies that agree on them have the same outcome.  A
    [session_id] or [timestamp] in the body has no effect. *)
Theorem ingest_ignores_other_fields `{Runtime} (env : draws) (body body' : dict)
    (db : DB) :
  body !! "score" = body' !! "score" ->
  body !! "survival_time" = body' !! "survival_time" ->
  body !! "complexity_peak" = body' !! "complexity_peak" ->
  post_game_session env body db = post_game_session env body' db.
Proof.
  intros H1 H2 H3. unfold post_game_session, GameSessionCreate.validate.
  by rewrite H1, H2, H3.
Qed.

(** X3.  The outcomes of an ingest: a body that fails validation is
    answered with a [ValidationError]; a valid one whose score does not
    fit 64 bits with a server error; in both cases the store stays.  Any
    other body creates the session with the drawn identifier and instant
    and appends its document. *)
Theorem ingest_outcomes `{Runtime} (env : draws) (body : dict) (db : DB) :
  post_game_session env body db
  = match GameSessionCreate.validate body with
    | None => (Err ValidationError, db)
    | Some input =>
        if (int64_min <=? GameSessionCreate.score input)
           && (GameSessionCreate.score input <=? int64_max)
        then (Ok (new_session env input),
              <[game_sessions :=
                  collection game_sessions db
                  ++ [with_id (length (collection game_sessions db))
                        (stored_doc (new_session env input))]]> db)
        else (Err ServerError, db)
    end.
Proof.
  destruct (GameSessionCreate.validate body) as [input|] eqn:Hv.
  - rewrite (post_game_session_accepted _ _ input) by done.
    rewrite create_game_session_spec. cbv zeta.
    by rewrite bson_encodable_stored.
  - by apply post_game_session_rejected.
Qed.

(** X4.  The document of a created session has the fields [_id],
    [session_id], [score], [survival_time], [complexity_peak] and
    [timestamp] and no other; its timestamp is a string, which the loop of
    the leaderboard reads back as the instant of the returned session. *)
Theorem stored_timestamp_round_trip `{Runtime} (env : draws) (body : dict)
    (db db' : DB) (s : GameSession.t) :
  post_game_session env body db = (Ok s, db') ->
  exists doc iso,
    collection game_sessions db' = collection game_sessions db ++ [doc] /\
    dom doc = ({[ "_id"; "session_id"; "score"; "survival_time";
                  "complexity_peak"; "timestamp" ]} : gset string) /\
    doc !! "timestamp" = Some (VStr iso) /\
    GameSession.timestamp s = now env /\
    forall idx db0,
    exists session,
      annotate idx [delete "_id" doc] db0 = (Ok [session], db0) /\
      session !! "timestamp" = Some (VDatetime (GameSession.timestamp s)) /\
      session !! "rank" = Some (VInt (Z.of_nat idx + 1)) /\
      session !! "_id" = None.
Proof.
  intros Hp. destruct (post_game_session_ok _ _ _ _ _ Hp) as (input & _ & Hs & ->).
  eexists _, _. split; [by rewrite collection_insert|].
  split; [apply stored_doc_dom|]. split; [apply stored_doc_timestamp|].
  split; [by subst s|]. intros idx db0. eexists. split.
  - rewrite annotate_session_docs.
    + cbn [imap]. reflexivity.
    + constructor; [|done]. rewrite session_doc_delete_id. apply session_doc_stored.
  - unfold annotated. rewrite lookup_delete_ne by done.
    rewrite stored_doc_timestamp, fromisoformat_isoformat.
    split; [|split].
    + rewrite lookup_insert_ne by done. apply lookup_insert_eq.
    + rewrite lookup_insert_eq. do 3 f_equal. lia.
    + rewrite !lookup_insert_ne by done. apply lookup_delete_eq.
Qed.

(** X5.  A negative limit is not caught before the query: the driver
    refuses it and the leaderboard fails with a server error, whatever is
    stored; the store stays. *)
Theorem leaderboard_negative_limit_fails `{Runtime} (db : DB) (limit : option string)
    (n : Z) :
  requested limit = Some n -> n < 0 ->
  get_game_leaderboard limit db = (Err ServerError, db).
Proof. intros Hl Hn. by apply (get_game_leaderboard_negative _ n). Qed.



(** * The test client *)

#[local] Set Warnings "-clear-no-such-hyp".

Section TesterProperties.
Context {W : Type} (send : http_request -> W -> option http_response * W).

Lemma test_api_root_advanced self w :
  advanced "API Root" (Tester.test_api_root send self w).1.1 self
    (Tester.test_api_root send self w).1.2.
Proof.
  unfold Tester.test_api_root. destruct (send _ w) as [response w1].
  by repeat split.
Qed.

Lemma test_create_game_session_advanced self w :
  advanced "Create Game Session" (Tester.test_create_game_session send self w).1.1 self
    (Tester.test_create_game_session send self w).1.2.
Proof.
  unfold Tester.test_create_game_session. destruct (send _ w) as [[response|] w1];
    [|by repeat split].
  destruct (bool_decide _); [|by repeat split].
  destruct (content response) as [data|]; [|by repeat split].
  destruct (Tester.py_get data "session_id"); by repeat split.
Qed.

Lemma test_get_leaderboard_advanced self w :
  advanced "Get Leaderboard" (Tester.test_get_leaderboard send self w).1.1 self
    (Tester.test_get_leaderboard send self w).1.2.
Proof.
  unfold Tester.test_get_leaderboard. destruct (send _ w) as [response w1].
  by repeat split.
Qed.

Lemma test_get_stats_advanced self w :
  advanced "Get Game Stats" (Tester.test_get_stats send self w).1.1 self
    (Tester.test_get_stats send self w).1.2.
Proof.
  unfold Tester.test_get_stats. destruct (send _ w) as [response w1].
  by repeat split.
Qed.

Lemma test_invalid_session_data_advanced self w :
  advanced "Invalid Session Data Validation"
    (Tester.test_invalid_session_data send self w).1.1 self
    (Tester.test_invalid_session_data send self w).1.2.
Proof.
  unfold Tester.test_invalid_session_data. destruct (send _ w) as [response w1].
  by repeat split.
Qed.
End TesterProperties.

(** X8.  [test_api_root] sends one GET to the root of the API and passes
    exactly when a response comes back with status 200 and a JSON object
    as body. *)
Theorem api_root_test_verdict {W : Type}
    (send : http_request -> W -> option http_response * W) (self : Tester.t) (w : W) :
  (Tester.test_api_root send self w).2
  = (send (HttpGet (Tester.api_url self ++ "/")%string) w).2 /\
  ((Tester.test_api_root send self w).1.1 = true <->
   exists r o,
     (send (HttpGet (Tester.api_url self ++ "/")%string) w).1 = Some r /\
     status_code r = 200 /\ content r = Some (JObj o)).
Proof.
  unfold Tester.test_api_root.
  destruct (send _ w) as [[r|] w1]; simpl; (split; [done|]); [|naive_solver].
  case_bool_decide as Hs; simpl; [|naive_solver].
  destruct (content r) as [[]|] eqn:Hc; simpl; naive_solver.
Qed.

(** X9.  [test_create_game_session] passes exactly when the response has
    status 200 or 201 and a JSON object as body whose [session_id] is a
    string or a list.  The tester keeps the [session_id] of every such
    object, also a missing or unusable one that fails the test; on any
    other response it keeps what it had. *)
Theorem create_session_test_verdict {W : Type}
    (send : http_request -> W -> option http_response * W) (self : Tester.t) (w : W) :
  let sent := send (HttpPost (Tester.api_url self ++ "/game/session")%string
                      Tester.test_payload) w in
  let after := Tester.test_create_game_session send self w in
  after.2 = sent.2 /\
  (after.1.1 = true <->
   exists r o,
     sent.1 = Some r /\ (status_code r = 200 \/ status_code r = 201) /\
     content r = Some (JObj o) /\ sliceable (default JNull (o !! "session_id")) = true) /\
  (forall r o,
     sent.1 = Some r -> (status_code r = 200 \/ status_code r = 201) ->
     content r = Some (JObj o) ->
     Tester.session_id after.1.2 = default JNull (o !! "session_id")) /\
  ((forall r o,
      sent.1 = Some r -> (status_code r = 200 \/ status_code r = 201) ->
      content r <> Some (JObj o)) ->
   Tester.session_id after.1.2 = Tester.session_id self).
Proof.
  cbv zeta. unfold Tester.test_create_game_session.
  destruct (send _ w) as [[r|] w1]; simpl; [|naive_solver].
  case_bool_decide as Hs; simpl; [|naive_solver].
  destruct (content r) as [[| | | | | |o]|] eqn:Hc; simpl.
  1-6, 8: repeat split; try done;
    [ intros (r0 & o0 & [= <-] & _ & Hc0 & _); congruence
    | intros r0 o0 [= <-] _ Hc0; congruence ].
  split; [done|].
  assert (forall r0 o0, Some r = Some r0 -> content r0 = Some (JObj o0) -> o0 = o)
    as Ho by (intros r0 o0 [= <-]; congruence).
  split; [|split].
  - destruct (default JNull (o !! "session_id")) eqn:Hsid; simpl.
    all: split; [try done; intros _; exists r, o; by rewrite Hsid|].
    all: intros (r0 & o0 & Hr & _ & Hc0 & Hsl);
      rewrite (Ho _ _ Hr Hc0), Hsid in Hsl; done.
  - intros r0 o0 Hr _ Hc0. by rewrite (Ho _ _ Hr Hc0).
  - intros Hno. by destruct (Hno r o).
Qed.

(** X10.  [test_get_leaderboard] asks for limit 5 and passes exactly when
    the response has status 200 and a JSON body that has a length and,
    when it is a list that is not empty, starts with an object.  It does
    not require a list: an object or a string passes as well. *)
Theorem leaderboard_test_verdict {W : Type}
    (send : http_request -> W -> option http_response * W) (self : Tester.t) (w : W) :
  let sent := send (HttpGet (Tester.api_url self ++ "/game/leaderboard?limit=5")%string) w in
  let after := Tester.test_get_leaderboard send self w in
  after.2 = sent.2 /\
  (after.1.1 = true <->
   exists r data,
     sent.1 = Some r /\ status_code r = 200 /\ content r = Some data /\
     leaderboard_body_accepted data = true).
Proof.
  cbv zeta. unfold Tester.test_get_leaderboard.
  destruct (send _ w) as [[r|] w1]; simpl; (split; [done|]); [|naive_solver].
  case_bool_decide as Hs; simpl; [|naive_solver].
  destruct (content r) as [[| | | | |[|[] ?]|o]|] eqn:Hc; simpl; naive_solver.
Qed.

(** X11.  [test_get_stats] passes exactly when the response has status
    200 and a JSON object as body; which fields the object has is not
    checked. *)
Theorem stats_test_verdict {W : Type}
    (send : http_request -> W -> option http_response * W) (self : Tester.t) (w : W) :
  let sent := send (HttpGet (Tester.api_url self ++ "/game/stats")%string) w in
  let after := Tester.test_get_stats send self w in
  after.2 = sent.2 /\
  (after.1.1 = true <->
   exists r o, sent.1 = Some r /\ status_code r = 200 /\ content r = Some (JObj o)).
Proof.
  cbv zeta. unfold Tester.test_get_stats.
  destruct (send _ w) as [[r|] w1]; simpl; (split; [done|]); [|naive_solver].
  case_bool_decide as Hs; simpl; [|naive_solver].
  destruct (content r) as [[]|] eqn:Hc; simpl; naive_solver.
Qed.

(** X12.  [test_invalid_session_data] posts a body whose only field is a
    score that is no number and passes exactly when the response has
    status 400 or 422; the body of the response is not read. *)
Theorem invalid_data_test_verdict {W : Type}
    (send : http_request -> W -> option http_response * W) (self : Tester.t) (w : W) :
  let sent := send (HttpPost (Tester.api_url self ++ "/game/session")%string
                      Tester.invalid_payload) w in
  let after := Tester.test_invalid_session_data send self w in
  after.2 = sent.2 /\
  (after.1.1 = true <->
   exists r, sent.1 = Some r /\ (status_code r = 400 \/ status_code r = 422)).
Proof.
  cbv zeta. unfold Tester.test_invalid_session_data.
  destruct (send _ w) as [[r|] w1]; simpl; (split; [done|]); [|naive_solver].
  case_bool_decide as Hs; simpl; naive_solver.
Qed.

Section RunAllTests.
Context {W : Type} (send : http_request -> W -> option http_response * W).

(** [run_all_tests], test by test. *)
Lemma run_all_tests_steps self w :
  exists ok1 s1 w1,
    Tester.test_api_root send self w = (ok1, s1, w1) /\
    advanced "API Root" ok1 self s1 /\
    (ok1 = false /\ Tester.run_all_tests send self w = (false, s1, w1) \/
     ok1 = true /\
     exists ok2 s2 w2 ok3 s3 w3 ok4 s4 w4 ok5 s5 w5,
       Tester.test_create_game_session send s1 w1 = (ok2, s2, w2) /\
       Tester.test_get_leaderboard send s2 w2 = (ok3, s3, w3) /\
       Tester.test_get_stats send s3 w3 = (ok4, s4, w4) /\
       Tester.test_invalid_session_data send s4 w4 = (ok5, s5, w5) /\
       advanced "Create Game Session" ok2 s1 s2 /\
       advanced "Get Leaderboard" ok3 s2 s3 /\
       advanced "Get Game Stats" ok4 s3 s4 /\
       advanced "Invalid Session Data Validation" ok5 s4 s5 /\
       Tester.run_all_tests send self w
       = (bool_decide (Tester.tests_passed s5 = Tester.tests_run s5), s5, w5)).
Proof.
  unfold Tester.run_all_tests.
  pose proof (test_api_root_advanced send self w) as H1.
  destruct (Tester.test_api_root send self w) as [[ok1 s1] w1] eqn:E1. simpl in H1.
  exists ok1, s1, w1. split; [done|]. split; [done|].
  destruct ok1; simpl; [right|by left]. split; [done|].
  pose proof (test_create_game_session_advanced send s1 w1) as H2.
  destruct (Tester.test_create_game_session send s1 w1) as [[ok2 s2] w2] eqn:E2. simpl in H2.
  pose proof (test_get_leaderboard_advanced send s2 w2) as H3.
  destruct (Tester.test_get_leaderboard send s2 w2) as [[ok3 s3] w3] eqn:E3. simpl in H3.
  pose proof (test_get_stats_advanced send s3 w3) as H4.
  destruct (Tester.test_get_stats send s3 w3) as [[ok4 s4] w4] eqn:E4. simpl in H4.
  pose proof (test_invalid_session_data_advanced send s4 w4) as H5.
  destruct (Tester.test_invalid_session_data send s4 w4) as [[ok5 s5] w5] eqn:E5. simpl in H5.
  exists ok2, s2, w2, ok3, s3, w3, ok4, s4, w4, ok5, s5, w5.
  repeat (split; [done|]). done.
Qed.
End RunAllTests.

(** X13.  When the test of the API root fails, [run_all_tests] stops: it
    returns [False] after that one request, with one test run and none
    passed in addition, and sends nothing else. *)
Theorem run_all_tests_stops_without_api {W : Type}
    (send : http_request -> W -> option http_response * W) (self : Tester.t) (w : W) :
  (Tester.test_api_root send self w).1.1 = false ->
  exists self',
    Tester.run_all_tests send self w
    = (false, self', (send (HttpGet (Tester.api_url self ++ "/")%string) w).2) /\
    Tester.tests_run self' = S (Tester.tests_run self) /\
    Tester.tests_passed self' = Tester.tests_passed self /\
    Tester.printed self' = Tester.printed self ++ [("API Root", false)].
Proof.
  intros Hroot.
  destruct (run_all_tests_steps send self w) as (ok1 & s1 & w1 & Ht & Ha & Hrun).
  rewrite Ht in Hroot. simpl in Hroot. subst ok1.
  destruct Hrun as [[_ Hrun]|[? _]]; [|done].
  destruct Ha as (_ & _ & Hr & Hp & Hpr).
  exists s1. rewrite Hrun. repeat split; try done.
  f_equal. unfold Tester.test_api_root in Ht.
  destruct (send _ w) as [response w0]. by injection Ht as _ _ ->.
Qed.

(** X14.  The counters of [run_all_tests]: one test or five are run, never
    more passed than run.  It returns [True] only after five tests and
    with as many passed as run, all earlier ones included: a tester that
    starts with a failure on record returns [False] whatever happens. *)
Theorem run_all_tests_counters {W : Type}
    (send : http_request -> W -> option http_response * W) (self : Tester.t) (w : W) :
  let after := Tester.run_all_tests send self w in
  (Tester.tests_run after.1.2 = (Tester.tests_run self + 1)%nat \/
   Tester.tests_run after.1.2 = (Tester.tests_run self + 5)%nat) /\
  (Tester.tests_passed self <= Tester.tests_run self ->
   Tester.tests_passed after.1.2 <= Tester.tests_run after.1.2)%nat /\
  (after.1.1 = true ->
   Tester.tests_run after.1.2 = (Tester.tests_run self + 5)%nat /\
   Tester.tests_passed after.1.2 = Tester.tests_run after.1.2) /\
  ((Tester.tests_passed self < Tester.tests_run self)%nat -> after.1.1 = false).
Proof.
  cbv zeta.
  destruct (run_all_tests_steps send self w) as (ok1 & s1 & w1 & _ & Ha1 & Hrun).
  destruct Ha1 as (_ & _ & Hr1 & Hp1 & _).
  destruct Hrun as [[-> ->]|[-> Hrun]]; simpl.
  { repeat split; try done; lia. }
  destruct Hrun as (ok2 & s2 & w2 & ok3 & s3 & w3 & ok4 & s4 & w4 & ok5 & s5 & w5
                    & _ & _ & _ & _ & Ha2 & Ha3 & Ha4 & Ha5 & ->).
  destruct Ha2 as (_ & _ & Hr2 & Hp2 & _), Ha3 as (_ & _ & Hr3 & Hp3 & _),
    Ha4 as (_ & _ & Hr4 & Hp4 & _), Ha5 as (_ & _ & Hr5 & Hp5 & _).
  simpl.
  assert (Tester.tests_passed s5 <= Tester.tests_passed self + 5)%nat
    by (destruct ok2, ok3, ok4, ok5; lia).
  assert (Tester.tests_passed self <= Tester.tests_run self ->
          Tester.tests_passed s5 <= Tester.tests_run s5)%nat
    by (destruct ok2, ok3, ok4, ok5; lia).
  split; [right; lia|]. split; [done|]. split.
  - intros Hok%bool_decide_eq_true. split; [lia|done].
  - intros Hlt. apply bool_decide_eq_false. lia.
Qed.

(** X15.  On a new tester [run_all_tests] returns [True] exactly when the
    five tests were run in their order and each passed; [main] then exits
    with 0, and with 1 in every other case. *)
Theorem fresh_run_all_tests_result {W : Type}
    (send : http_request -> W -> option http_response * W) (base : string) (w : W) :
  let after := Tester.run_all_tests send (Tester.init base) w in
  (after.1.1 = true <->
   Tester.printed after.1.2 = (fun name => (name, true)) <$> test_names) /\
  (after.1.1 = true <-> Tester.tests_passed after.1.2 = 5%nat) /\
  ((Tester.main send w).1 = 0 <->
   Tester.printed (Tester.run_all_tests send (Tester.init Tester.default_base_url) w).1.2
   = (fun name => (name, true)) <$> test_names) /\
  ((Tester.main send w).1 = 0 \/ (Tester.main send w).1 = 1).
Proof.
  assert (forall b,
    let after := Tester.run_all_tests send (Tester.init b) w in
    (after.1.1 = true <->
     Tester.printed after.1.2 = (fun name => (name, true)) <$> test_names) /\
    (after.1.1 = true <-> Tester.tests_passed after.1.2 = 5%nat)) as Hfresh.
  { intros b. cbv zeta.
    destruct (run_all_tests_steps send (Tester.init b) w)
      as (ok1 & s1 & w1 & _ & Ha1 & Hrun).
    destruct Ha1 as (_ & _ & Hr1 & Hp1 & Hpr1). simpl in Hr1, Hp1, Hpr1.
    destruct Hrun as [[-> ->]|[-> Hrun]]; simpl.
    { rewrite Hpr1, Hp1. split; split; intros; discriminate. }
    destruct Hrun as (ok2 & s2 & w2 & ok3 & s3 & w3 & ok4 & s4 & w4 & ok5 & s5 & w5
                      & _ & _ & _ & _ & Ha2 & Ha3 & Ha4 & Ha5 & ->).
    destruct Ha2 as (_ & _ & Hr2 & Hp2 & Hpr2), Ha3 as (_ & _ & Hr3 & Hp3 & Hpr3),
      Ha4 as (_ & _ & Hr4 & Hp4 & Hpr4), Ha5 as (_ & _ & Hr5 & Hp5 & Hpr5).
    simpl. rewrite Hpr5, Hpr4, Hpr3, Hpr2, Hpr1.
    rewrite Hr5, Hr4, Hr3, Hr2, Hr1, Hp5, Hp4, Hp3, Hp2, Hp1.
    destruct ok2, ok3, ok4, ok5; simpl; split; (split; intros ?);
      (done || lia || discriminate). }
  cbv zeta. split; [apply Hfresh|]. split; [apply Hfresh|].
  unfold Tester.main.
  destruct (Hfresh Tester.default_base_url) as [Hp _]. cbv zeta in Hp.
  destruct (Tester.run_all_tests send (Tester.init Tester.default_base_url) w)
    as [[ok s] w']. simpl in *.
  destruct ok.
  - split; [split; [intros _; by apply Hp | done] | by left].
  - split; [split; [done | intros E; apply Hp in E; done] | by right].
Qed.

(** * The test client against the service *)

Section Service.
Context `{Runtime} (fw : framework) (envs : nat -> draws) (base : string).

















End Service.


(** * The further properties on concrete requests *)

Section MoreExamples.
Import Example ServiceExample.
#[local] Existing Instance Lax.runtime.


Lemma ingest_ignores_other_fields_witness :
  body4_with_id !! "score" = body4 !! "score" /\
  body4_with_id !! "survival_time" = body4 !! "survival_time" /\
  body4_with_id !! "complexity_peak" = body4 !! "complexity_peak" /\
  post_game_session env4 body4_with_id db3 = post_game_session env4 body4 db3.
Proof.
  assert (body4_with_id !! "score" = body4 !! "score") as H1
    by (vm_cast_no_check (eq_refl (body4 !! "score"))).
  assert (body4_with_id !! "survival_time" = body4 !! "survival_time") as H2
    by (vm_cast_no_check (eq_refl (body4 !! "survival_time"))).
  assert (body4_with_id !! "complexity_peak" = body4 !! "complexity_peak") as H3
    by (vm_cast_no_check (eq_refl (body4 !! "complexity_peak"))).
  split; [exact H1|]. split; [exact H2|]. split; [exact H3|].
  exact (ingest_ignores_other_fields env4 body4_with_id body4 db3 H1 H2 H3).
Defined.

Lemma stored_timestamp_round_trip_witness :
  post_game_session env4 body4 db3 = (Ok session4, db4) /\
  exists doc iso,
    collection game_sessions db4 = collection game_sessions db3 ++ [doc] /\
    dom doc = ({[ "_id"; "session_id"; "score"; "survival_time";
                  "complexity_peak"; "timestamp" ]} : gset string) /\
    doc !! "timestamp" = Some (VStr iso) /\
    GameSession.timestamp session4 = now env4 /\
    forall idx db0,
    exists session,
      annotate idx [delete "_id" doc] db0 = (Ok [session], db0) /\
      session !! "timestamp" = Some (VDatetime (GameSession.timestamp session4)) /\
      session !! "rank" = Some (VInt (Z.of_nat idx + 1)) /\
      session !! "_id" = None.
Proof.
  assert (post_game_session env4 body4 db3 = (Ok session4, db4)) as Hp
    by (vm_cast_no_check (eq_refl (Ok session4, db4))).
  split; [exact Hp|].
  exact (stored_timestamp_round_trip env4 body4 db3 db4 session4 Hp).
Defined.

Lemma leaderboard_negative_limit_fails_witness :
  requested (Some "-1") = Some (-1) /\ -1 < 0 /\
  get_game_leaderboard (Some "-1") db3 = (Err ServerError, db3).
Proof.
  assert (requested (Some "-1") = Some (-1)) as Hl
    by (vm_cast_no_check (eq_refl (Some (-1)))).
  assert (-1 < 0) as Hn by lia.
  split; [exact Hl|]. split; [exact Hn|].
  exact (leaderboard_negative_limit_fails db3 (Some "-1") (-1) Hl Hn).
Defined.


Lemma run_all_tests_stops_without_api_witness :
  (Tester.test_api_root offline (Tester.init Tester.default_base_url) tt).1.1 = false /\
  exists self',
    Tester.run_all_tests offline (Tester.init Tester.default_base_url) tt
    = (false, self',
       (offline (HttpGet (Tester.api_url (Tester.init Tester.default_base_url) ++ "/")%string)
          tt).2) /\
    Tester.tests_run self' = S (Tester.tests_run (Tester.init Tester.default_base_url)) /\
    Tester.tests_passed self' = Tester.tests_passed (Tester.init Tester.default_base_url) /\
    Tester.printed self'
    = Tester.printed (Tester.init Tester.default_base_url) ++ [("API Root", false)].
Proof.
  assert ((Tester.test_api_root offline (Tester.init Tester.default_base_url) tt).1.1
          = false) as Hroot by reflexivity.
  split; [exact Hroot|].
  exact (run_all_tests_stops_without_api offline (Tester.init Tester.default_base_url)
           tt Hroot).
Defined.


(** The suite run against the service of [ServiceExample] on [db3]. *)
Example suite_on_db3 :
  (Tester.main service (db3, 0%nat)).1 = 0 /\
  (Tester.main offline tt).1 = 1.
Proof. split; [vm_cast_no_check (eq_refl 0)|reflexivity]. Qed.
End MoreExamples.
